(** * Civic-Samadhan backend: report and notification controllers

    A shallow embedding of [report.controller.js], of the notification
    controller ([getMyNotifications], [markNotificationAsRead]) and of the
    scheduled task registered at start-up, followed by the properties of
    the specification that concern them.

    The document store is a record of lists (one list per collection, in
    insertion order).  The asynchronous handlers are functions in a state
    and exception monad: a rejected promise that is awaited outside a
    [try] behaves as a [throw], and the writes performed before it stay
    in the store. *)

From Stdlib Require Import QArith.
From stdpp Require Import base option list strings gmap sorting.

Local Open Scope string_scope.
Local Open Scope Z_scope.
Local Open Scope list_scope.

(** ** JavaScript values found in a request body *)

Module Js.

Inductive JsVal : Type :=
| JUndefined
| JNull
| JBool (b : bool)
| JNum (q : Q)
| JNaN
| JStr (s : string).

(** ToBoolean: [undefined], [null], [false], zero, [NaN] and the empty
    string are falsy, everything else is truthy. *)
Definition truthy (v : JsVal) : bool :=
  match v with
  | JUndefined | JNull | JNaN => false
  | JBool b => b
  | JNum q => negb (Qnum q =? 0)
  | JStr s => negb (String.eqb s EmptyString)
  end.

(** [a || b] *)
Definition or_else (a b : JsVal) : JsVal := if truthy a then a else b.

(** Truthiness of a value that is a string or is absent. *)
Definition truthy_str (o : option string) : bool :=
  match o with
  | Some s => negb (String.eqb s EmptyString)
  | None => false
  end.

Definition dquote : string := String (Ascii.ascii_of_nat 34) EmptyString.

(** ToString inside a template literal; the decimal printing of a number
    is left to the runtime. *)
Definition to_string (num : Q -> string) (v : JsVal) : string :=
  match v with
  | JUndefined => "undefined"
  | JNull => "null"
  | JBool true => "true"
  | JBool false => "false"
  | JNum q => num q
  | JNaN => "NaN"
  | JStr s => s
  end.

(** The key of a [Map] whose keys are strings: a value that is not a
    string is equal to none of them. *)
Definition as_key (v : JsVal) : option string :=
  match v with JStr s => Some s | _ => None end.

(** [new Map(entries)]: a later entry replaces an earlier one. *)
Definition map_of {V} (entries : list (string * V)) : gmap string V :=
  foldl (fun m kv => <[kv.1 := kv.2]> m) ∅ entries.

(** SameValueZero, the equality of [Set] and [Map]. *)
Definition same_value_zero (a b : JsVal) : bool :=
  match a, b with
  | JUndefined, JUndefined | JNull, JNull | JNaN, JNaN => true
  | JBool x, JBool y => Bool.eqb x y
  | JNum p, JNum q => Qeq_bool p q
  | JStr s, JStr t => String.eqb s t
  | _, _ => false
  end.

(** [[...new Set(l)]]: the first occurrence of each element, in order. *)
Fixpoint uniq_from {A} (eqb : A -> A -> bool) (seen l : list A) : list A :=
  match l with
  | [] => []
  | x :: l' =>
      if existsb (eqb x) seen then uniq_from eqb seen l'
      else x :: uniq_from eqb (x :: seen) l'
  end.
Definition uniq {A} (eqb : A -> A -> bool) (l : list A) : list A :=
  uniq_from eqb [] l.

#[global] Instance Q_eq_dec : EqDecision Q.
Proof. solve_decision. Defined.
#[global] Instance JsVal_eq_dec : EqDecision JsVal.
Proof. solve_decision. Defined.

End Js.
Import Js.

(** ** Documents *)

Record UserDoc := mkUser {
  u_userId : string;
  u_username : string;
  u_name : string;
  u_email : string }.

Record CategoryDoc := mkCategory {
  c_categoryId : string;
  c_name : string;
  c_description : string }.

(** The fields a report takes from the request body are kept as they
    arrive: the schemas are not part of the sources, so no cast is
    modelled. *)
Record ReportDoc := mkReport {
  r_reportId : string;
  r_userId : string;
  r_categoryId : JsVal;
  r_title : JsVal;
  r_description : JsVal;
  r_photo_url : string;
  r_voice_recording_url : option string;
  r_location_lat : JsVal;
  r_location_lng : JsVal;
  r_status : JsVal;
  r_createdAt : Z }.

Record ReportHistoryDoc := mkReportHistory {
  h_reportId : string;
  h_previousStatus : JsVal;
  h_newStatus : JsVal;
  h_changedByUserId : string;
  h_remarks : string;
  h_createdAt : Z }.

Record NotificationDoc := mkNotification {
  n_notificationId : string;
  n_userId : string;
  n_message : string;
  n_type : string;
  n_reportId : option string;
  n_status : string;
  n_createdAt : Z }.

Record Store := mkStore {
  reports : list ReportDoc;
  histories : list ReportHistoryDoc;
  notifications : list NotificationDoc;
  categories : list CategoryDoc;
  users : list UserDoc }.

(** ** Errors, responses and the handler monad *)

Inductive Exn : Type :=
| ApiError (statusCode : Z) (message : string)
| Rejection (reason : string).

Record ApiResponse (A : Type) := mkApiResponse {
  statusCode : Z;
  data : A;
  message : string }.
Arguments mkApiResponse {A}.
Arguments statusCode {A}.
Arguments data {A}.
Arguments message {A}.

(** [res.status(s).json(b)] *)
Record Response (A : Type) := mkResponse {
  http_status : Z;
  json : ApiResponse A }.
Arguments mkResponse {A}.
Arguments http_status {A}.
Arguments json {A}.

Inductive Result (A : Type) : Type :=
| Returned (a : A)
| Thrown (e : Exn).
Arguments Returned {A}.
Arguments Thrown {A}.

Definition M (S A : Type) : Type := S -> S * Result A.

Definition ret {S A} (a : A) : M S A := fun s => (s, Returned a).
Definition throw {S A} (e : Exn) : M S A := fun s => (s, Thrown e).
Definition bind {S A B} (m : M S A) (k : A -> M S B) : M S B :=
  fun s => match m s with
           | (s', Returned a) => k a s'
           | (s', Thrown e) => (s', Thrown e)
           end.
Definition get {S} : M S S := fun s => (s, Returned s).
Definition gets {S A} (f : S -> A) : M S A := fun s => (s, Returned (f s)).
Definition modify {S} (f : S -> S) : M S unit := fun s => (f s, Returned tt).

(** [try { m } catch (error) { h error }] *)
Definition try_catch {S A} (m : M S A) (h : Exn -> M S A) : M S A :=
  fun s => match m s with
           | (s', Returned a) => (s', Returned a)
           | (s', Thrown e) => h e s'
           end.

#[global] Instance M_ret {S} : MRet (M S) := fun A => @ret S A.
#[global] Instance M_bind {S} : MBind (M S) := fun A B k m => @bind S A B m k.

Definition respond {S A} (code : Z) (d : A) (msg : string) : M S (Response A) :=
  ret (mkResponse code (mkApiResponse code d msg)).

(** ** External collaborators

    What one request observes of the code that is not in the controllers:
    the upload service answers with a secure URL or with nothing, the
    analytics recomputation and the creation of a notification resolve
    or reject, and a created document receives an identifier and a
    creation time. *)

Record Env := mkEnv {
  upload_result : string -> option string;
  analytics_rejection : option Exn;
  notification_rejection : option Exn;
  uuid : string;
  now : Z;
  number_to_string : Q -> string }.

Definition settle {S} (rejection : option Exn) : M S unit :=
  match rejection with
  | None => mret tt
  | Some e => throw e
  end.

(** [uploadOnCloudinary(path)]: the uploaded object, reduced to its
    [secure_url], or [null]. *)
Definition uploadOnCloudinary (env : Env) (localPath : string)
  : M Store (option string) :=
  mret (upload_result env localPath).

(** [generateAnalytics()] writes to a collection of its own, which the
    handlers below never read. *)
Definition generateAnalytics (env : Env) : M Store unit :=
  settle (analytics_rejection env).

(** [.sort({ createdAt: -1 })] *)
Definition newer_first {A} (createdAt : A -> Z) (a b : A) : Prop :=
  createdAt b ≤ createdAt a.
#[global] Instance newer_first_dec {A} (createdAt : A -> Z) :
  RelDecision (newer_first createdAt).
Proof. intros a b. unfold newer_first. apply _. Defined.
Definition sort_desc {A} (createdAt : A -> Z) (l : list A) : list A :=
  merge_sort (newer_first createdAt) l.

Definition set_reports (f : list ReportDoc -> list ReportDoc) (st : Store) : Store :=
  mkStore (f (reports st)) (histories st) (notifications st) (categories st) (users st).
Definition set_histories (f : list ReportHistoryDoc -> list ReportHistoryDoc)
  (st : Store) : Store :=
  mkStore (reports st) (f (histories st)) (notifications st) (categories st) (users st).
Definition set_notifications (f : list NotificationDoc -> list NotificationDoc)
  (st : Store) : Store :=
  mkStore (reports st) (histories st) (f (notifications st)) (categories st) (users st).

(** ** The models, as far as the controllers use them *)

Module Category.
(** [Category.findOne({ categoryId })] *)
Definition findOne (categoryId : JsVal) : M Store (option CategoryDoc) :=
  gets (fun st => head (filter (fun c => JStr (c_categoryId c) = categoryId)
                          (categories st))).
(** [Category.find({ categoryId: { $in: ids } }).select("name description categoryId")];
    a category document has no other field here. *)
Definition find_in (ids : list JsVal) : M Store (list CategoryDoc) :=
  gets (fun st => filter (fun c => JStr (c_categoryId c) ∈ ids) (categories st)).
End Category.

Record UserView := mkUserView {
  uv_username : string;
  uv_name : string;
  uv_userId : string }.

Module User.
(** [User.findOne({ userId })] *)
Definition findOne (userId : string) : M Store (option UserDoc) :=
  gets (fun st => head (filter (fun u => u_userId u = userId) (users st))).
Definition select (u : UserDoc) : UserView :=
  mkUserView (u_username u) (u_name u) (u_userId u).
(** [User.find({ userId: { $in: ids } }).select("username name userId")] *)
Definition find_in (ids : list string) : M Store (list UserView) :=
  gets (fun st => select <$> filter (fun u => u_userId u ∈ ids) (users st)).
End User.

Record ReportView := mkReportView {
  rv_reportId : string;
  rv_title : JsVal;
  rv_status : JsVal }.

(** What [Report.create] receives. *)
Record ReportInput := mkReportInput {
  ri_userId : string;
  ri_categoryId : JsVal;
  ri_title : JsVal;
  ri_description : JsVal;
  ri_photo_url : string;
  ri_voice_recording_url : option string;
  ri_location_lat : JsVal;
  ri_location_lng : JsVal }.

Module Report.
(** Modelled from the spec: [report.model.js] is missing.  A report is
    identified by an application-generated UUID, carries its creation
    time, and starts in status "pending". *)
Definition new (env : Env) (i : ReportInput) : ReportDoc :=
  mkReport (uuid env) (ri_userId i) (ri_categoryId i) (ri_title i)
    (ri_description i) (ri_photo_url i) (ri_voice_recording_url i)
    (ri_location_lat i) (ri_location_lng i) (JStr "pending") (now env).
Definition create (env : Env) (i : ReportInput) : M Store ReportDoc :=
  modify (set_reports (fun l => l ++ [new env i]));; mret (new env i).

(** [Report.find({ userId }).sort({ createdAt: -1 }).lean()] *)
Definition find_by_user (userId : string) : M Store (list ReportDoc) :=
  gets (fun st => sort_desc r_createdAt
                    (filter (fun r => r_userId r = userId) (reports st))).
(** [Report.find().sort({ createdAt: -1 }).lean()] *)
Definition find_all : M Store (list ReportDoc) :=
  gets (fun st => sort_desc r_createdAt (reports st)).

(** [Report.findOne({ reportId })]: the document and its place in the
    collection, which [save] writes back to. *)
Definition findOne (reportId : string) : M Store (option (nat * ReportDoc)) :=
  gets (fun st => list_find (fun r => r_reportId r = reportId) (reports st)).
Definition save (at_ : nat) (r : ReportDoc) : M Store unit :=
  modify (set_reports (fun l => <[at_ := r]> l)).

Definition select (r : ReportDoc) : ReportView :=
  mkReportView (r_reportId r) (r_title r) (r_status r).
(** [Report.find({ reportId: { $in: ids } }).select('reportId title status')] *)
Definition find_in (ids : list (option string)) : M Store (list ReportView) :=
  gets (fun st => select <$> filter (fun r => Some (r_reportId r) ∈ ids) (reports st)).
End Report.

Module ReportHistory.
Definition create (env : Env) (reportId : string) (previousStatus newStatus : JsVal)
  (changedByUserId remarks : string) : M Store ReportHistoryDoc :=
  let h := mkReportHistory reportId previousStatus newStatus changedByUserId
             remarks (now env) in
  modify (set_histories (fun l => l ++ [h]));; mret h.
End ReportHistory.

Module Notification.
(** Modelled from the spec: [notifications.model.js] is missing.  A
    notification is identified by a UUID, carries its creation time, and
    its read-status starts as "unread". *)
Definition new (env : Env) (userId message type reportId : string) : NotificationDoc :=
  mkNotification (uuid env) userId message type (Some reportId) "unread" (now env).
(** [Notification.create({...})]: a rejection writes nothing. *)
Definition create (env : Env) (userId message type reportId : string)
  : M Store NotificationDoc :=
  settle (notification_rejection env);;
  modify (set_notifications (fun l => l ++ [new env userId message type reportId]));;
  mret (new env userId message type reportId).

(** [Notification.find({ userId }).sort({ createdAt: -1 }).lean()] *)
Definition find_by_user (userId : string) : M Store (list NotificationDoc) :=
  gets (fun st => sort_desc n_createdAt
                    (filter (fun n => n_userId n = userId) (notifications st))).

Definition set_status (status : string) (n : NotificationDoc) : NotificationDoc :=
  mkNotification (n_notificationId n) (n_userId n) (n_message n) (n_type n)
    (n_reportId n) status (n_createdAt n).
(** [Notification.findOneAndUpdate({ notificationId, userId }, { status }, { new: true })] *)
Definition findOneAndUpdate (notificationId userId status : string)
  : M Store (option NotificationDoc) :=
  found ← gets (fun st =>
    list_find (fun n => n_notificationId n = notificationId ∧ n_userId n = userId)
      (notifications st));
  match found with
  | None => mret None
  | Some (i, n) =>
      modify (set_notifications (fun l => <[i := set_status status n]> l));;
      mret (Some (set_status status n))
  end.
End Notification.

(** ** report.controller.js *)

Record File := mkFile { path : string }.
Record Files := mkFiles {
  photo : option (list File);
  voiceRecording : option (list File) }.
Record SubmitBody := mkSubmitBody {
  title : JsVal;
  description : JsVal;
  categoryId : JsVal;
  locationLat : JsVal;
  locationLng : JsVal }.
Record SubmitRequest := mkSubmitRequest {
  body : SubmitBody;
  user : UserDoc;
  files : option Files }.

(** [req.files && req.files.photo && req.files.photo[0]] *)
Definition photo0 (req : SubmitRequest) : option (Files * File) :=
  fs ← files req; ph ← photo fs; f ← head ph; Some (fs, f).
(** [req.files.voiceRecording?.[0]?.path] *)
Definition voice0_path (fs : Files) : option string :=
  path <$> (voiceRecording fs ≫= head).

Definition submitReport (env : Env) (req : SubmitRequest) : M Store (Response ReportDoc) :=
  let b := body req in
  let userId := u_userId (user req) in
  if negb (truthy (title b)) || negb (truthy (description b))
     || negb (truthy (categoryId b)) || negb (truthy (locationLat b))
     || negb (truthy (locationLng b))
  then throw (ApiError 400 "All required fields (title, description, categoryId, locationLat, locationLng) are needed for the report.")
  else
    categoryExists ← Category.findOne (categoryId b);
    match categoryExists with
    | None => throw (ApiError 404 "The specified categoryId does not exist.")
    | Some _ =>
    match photo0 req with
    | Some (fs, photoFile) =>
        let photoLocalPath := path photoFile in
        let voiceRecordingLocalPath := voice0_path fs in
        uploadedPhoto ← uploadOnCloudinary env photoLocalPath;
        match uploadedPhoto with
        | None => throw (ApiError 500 "Failed to upload photo to cloud service.")
        | Some photoUrl =>
            voiceRecordingUrl ←
              match voiceRecordingLocalPath with
              | Some voicePath =>
                  if truthy_str (Some voicePath) then
                    uploadedVoiceRecording ← uploadOnCloudinary env voicePath;
                    match uploadedVoiceRecording with
                    | None => throw (ApiError 500 "Failed to upload voice recording to cloud service.")
                    | Some url => mret (Some url)
                    end
                  else mret None
              | None => mret None
              end;
            newReport ← Report.create env
              (mkReportInput userId (categoryId b) (title b) (description b)
                 photoUrl voiceRecordingUrl (locationLat b) (locationLng b));
            ReportHistory.create env (r_reportId newReport) JNull (JStr "pending")
              userId "Report submitted by user.";;
            generateAnalytics env;;
            respond 201 newReport "Report submitted successfully."
        end
    | None => throw (ApiError 400 "A photo is required for the report.")
    end
    end.

Definition set_status_description (status description : JsVal) (r : ReportDoc) : ReportDoc :=
  mkReport (r_reportId r) (r_userId r) (r_categoryId r) (r_title r)
    description (r_photo_url r) (r_voice_recording_url r)
    (r_location_lat r) (r_location_lng r) status (r_createdAt r).

Definition status_message (env : Env) (reportId : string) (status : JsVal) : string :=
  "Your report #" +:+ reportId +:+ " status changed to " +:+ dquote
    +:+ to_string (number_to_string env) status +:+ dquote +:+ ".".

Definition updateReportStatus (env : Env) (reportId : string) (status description : JsVal)
  : M Store (Response ReportDoc) :=
  if negb (truthy status) then throw (ApiError 400 "Status is required.")
  else
    found ← Report.findOne reportId;
    match found with
    | None => throw (ApiError 404 "Report not found.")
    | Some (i, report0) =>
        (* report.status = status;
           report.description = description || report.description; *)
        let report :=
          set_status_description status
            (or_else description (r_description report0)) report0 in
        Report.save i report;;
        user ← User.findOne (r_userId report);
        match user with
        | Some u =>
            Notification.create env (u_userId u)
              (status_message env (r_reportId report) status)
              "status_update" (r_reportId report);;
            mret tt
        | None => mret tt
        end;;
        generateAnalytics env;;
        respond 200 report "Report status updated successfully and notification sent."
    end.

Inductive UserRef : Type :=
| UserRaw (userId : string)
| UserFull (u : UserDoc)
| UserSelected (u : UserView).

Inductive CategoryRef : Type :=
| CategoryRaw (categoryId : JsVal)
| CategoryObj (c : CategoryDoc).

(** [{ ...report, userId: _, categoryId: _ }] *)
Record PopulatedReport := mkPopulatedReport {
  pr_report : ReportDoc;
  pr_userId : UserRef;
  pr_categoryId : CategoryRef }.

(** [categoryMap.get(report.categoryId) || report.categoryId] *)
Definition category_ref (categoryMap : gmap string CategoryDoc) (report : ReportDoc)
  : CategoryRef :=
  match as_key (r_categoryId report) ≫= (categoryMap !!.) with
  | Some c => CategoryObj c
  | None => CategoryRaw (r_categoryId report)
  end.

(** [userMap.get(report.userId) || report.userId] *)
Definition user_ref (userMap : gmap string UserView) (report : ReportDoc) : UserRef :=
  match userMap !! r_userId report with
  | Some u => UserSelected u
  | None => UserRaw (r_userId report)
  end.

Definition is_nonempty (s : string) : bool := negb (String.eqb s EmptyString).

Definition getMyReports (reqUser : UserDoc) : M Store (Response (list PopulatedReport)) :=
  let loggedInUserUUID := u_userId reqUser in
  myReports ← Report.find_by_user loggedInUserUUID;
  if bool_decide (length myReports = 0%nat) then
    respond 200 [] "User has not created any reports yet."
  else
    let categoryUUIDs :=
      uniq same_value_zero (filter (fun id => truthy id) (r_categoryId <$> myReports)) in
    categories ← Category.find_in categoryUUIDs;
    let categoryMap := map_of ((fun category => (c_categoryId category, category)) <$> categories) in
    let populatedReports :=
      (fun report => mkPopulatedReport report (UserFull reqUser)
                       (category_ref categoryMap report)) <$> myReports in
    respond 200 populatedReports "User reports fetched successfully.".

Definition getAllReports : M Store (Response (list PopulatedReport)) :=
  reports ← Report.find_all;
  if bool_decide (length reports = 0%nat) then
    throw (ApiError 404 "No reports found.")
  else
    let userUUIDs :=
      uniq String.eqb (filter (fun id => is_nonempty id) (r_userId <$> reports)) in
    let categoryUUIDs :=
      uniq same_value_zero (filter (fun id => truthy id) (r_categoryId <$> reports)) in
    users ← User.find_in userUUIDs;
    categories ← Category.find_in categoryUUIDs;
    let userMap := map_of ((fun user => (uv_userId user, user)) <$> users) in
    let categoryMap := map_of ((fun category => (c_categoryId category, category)) <$> categories) in
    let populatedReports :=
      (fun report => mkPopulatedReport report (user_ref userMap report)
                       (category_ref categoryMap report)) <$> reports in
    respond 200 populatedReports "All reports fetched successfully.".

(** [getReportById].  What the two [populate] calls put in place of the
    owner and of the category depends on the references the schemas
    declare, which are not among the sources: the populated document is
    the result of one read of the store, which may reject.  A query that
    finds no document resolves to [null] without populating. *)
Section GetReportById.

Context {Populated : Type}.
Variable populate : Store -> ReportDoc -> Result Populated.

Definition populated (report : ReportDoc) : M Store Populated :=
  fun st => (st, populate st report).

Definition findOne_populated (reportId : string) : M Store (option Populated) :=
  found ← Report.findOne reportId;
  match found with
  | None => mret None
  | Some (_, report) => p ← populated report; mret (Some p)
  end.

Definition getReportById (reportId : string) : M Store (Response Populated) :=
  report ← findOne_populated reportId;
  match report with
  | None => throw (ApiError 404 "Report not found.")
  | Some r => respond 200 r "Report fetched successfully."
  end.

End GetReportById.

(** ** The notification controller *)

Inductive ReportRef : Type :=
| ReportRaw (reportId : option string)
| ReportSelected (r : ReportView).

(** [{ ...notification, reportId: _ }] *)
Record PopulatedNotification := mkPopulatedNotification {
  pn_notification : NotificationDoc;
  pn_reportId : ReportRef }.

(** [reportMap.get(notification.reportId) || notification.reportId] *)
Definition report_ref (reportMap : gmap string ReportView) (notification : NotificationDoc)
  : ReportRef :=
  match n_reportId notification ≫= (reportMap !!.) with
  | Some r => ReportSelected r
  | None => ReportRaw (n_reportId notification)
  end.

Definition getMyNotifications (reqUser : UserDoc)
  : M Store (Response (list PopulatedNotification)) :=
  let userId := u_userId reqUser in
  notifications ← Notification.find_by_user userId;
  if bool_decide (length notifications = 0%nat) then
    respond 200 [] "No notifications found for this user."
  else
    let reportUUIDs :=
      uniq (fun a b => bool_decide (a = b))
        (filter (fun id => truthy_str id) (n_reportId <$> notifications)) in
    relatedReports ← Report.find_in reportUUIDs;
    let reportMap := map_of ((fun report => (rv_reportId report, report)) <$> relatedReports) in
    let populatedNotifications :=
      (fun notification => mkPopulatedNotification notification
                             (report_ref reportMap notification)) <$> notifications in
    respond 200 populatedNotifications "Notifications fetched successfully.".

Definition markNotificationAsRead (notificationId : string) (reqUser : UserDoc)
  : M Store (Response NotificationDoc) :=
  let userId := u_userId reqUser in
  notification ← Notification.findOneAndUpdate notificationId userId "read";
  match notification with
  | None => throw (ApiError 404 "Notification not found or user not authorized.")
  | Some n => respond 200 n "Notification marked as read."
  end.

(** ** The scheduled task of the start-up script *)

Inductive LogEntry : Type :=
| ConsoleLog (msg : string)
| ConsoleError (msg : string) (error : Exn).

(** What the scheduled task can reach: the console and the store. *)
Record Process := mkProcess {
  console : list LogEntry;
  store : Store }.

Definition console_log (msg : string) : M Process unit :=
  modify (fun p => mkProcess (console p ++ [ConsoleLog msg]) (store p)).
Definition console_error (msg : string) (error : Exn) : M Process unit :=
  modify (fun p => mkProcess (console p ++ [ConsoleError msg error]) (store p)).

Section Cron.

(** [sendPendingReportNotifications] lives in [utils/notification.service.js],
    which is not among the sources: any computation on the process. *)
Variable sendPendingReportNotifications : M Process unit.

(** The callback handed to [cron.schedule('*/15 * * * *', ...)]. *)
Definition notification_task : M Process unit :=
  console_log "Running pending report notification task...";;
  try_catch
    (sendPendingReportNotifications;;
     console_log "Notification task completed successfully.")
    (fun error => console_error "Error during notification task:" error).

End Cron.

(** The scheduler runs the callback once per tick, with whatever the
    dispatch routine does at that tick; an error that leaves the callback
    ends the sequence of runs.  The result counts the completed runs. *)
Fixpoint cron_schedule (callback : M Process unit -> M Process unit)
  (ticks : list (M Process unit)) : M Process nat :=
  match ticks with
  | [] => mret 0%nat
  | sendPending :: later =>
      callback sendPending;;
      n ← cron_schedule callback later;
      mret (S n)
  end.

(** ** Vocabulary of the statements *)

Definition updated_report (status description : JsVal) (report0 : ReportDoc) : ReportDoc :=
  set_status_description status (or_else description (r_description report0)) report0.

Definition owner_of (st : Store) (report : ReportDoc) : option UserDoc :=
  head (filter (fun u => u_userId u = r_userId report) (users st)).

Definition update_response (report : ReportDoc) : Response ReportDoc :=
  mkResponse 200
    (mkApiResponse 200 report "Report status updated successfully and notification sent.").

(** A number that is zero, however it is written. *)
Definition is_zero (v : JsVal) : Prop := exists q, v = JNum q ∧ (q == 0)%Q.

Definition required_fields (b : SubmitBody) : list JsVal :=
  [title b; description b; categoryId b; locationLat b; locationLng b].

(** The optional voice recording uploads, when there is one to upload. *)
Definition voice_upload_succeeds (env : Env) (fs : Files) : Prop :=
  match voice0_path fs with
  | Some voicePath =>
      truthy_str (Some voicePath) = true -> is_Some (upload_result env voicePath)
  | None => True
  end.

Definition owned_by (notificationId userId : string) (n : NotificationDoc) : Prop :=
  n_notificationId n = notificationId ∧ n_userId n = userId.

Definition newest_first {A} (createdAt : A -> Z) (l : list A) : Prop :=
  StronglySorted (newer_first createdAt) l.

Definition pr_createdAt (p : PopulatedReport) : Z := r_createdAt (pr_report p).
Definition pn_createdAt (p : PopulatedNotification) : Z := n_createdAt (pn_notification p).

(** The report ids fetched for a list of notifications, and the map built
    from the answer, as [getMyNotifications] computes them. *)
Definition related_reports (st : Store) (ns : list NotificationDoc) : list ReportView :=
  Report.select <$>
    filter (fun r => Some (r_reportId r)
                       ∈ uniq (fun a b => bool_decide (a = b))
                           (filter (fun id => truthy_str id) (n_reportId <$> ns)))
      (reports st).
Definition report_map (st : Store) (ns : list NotificationDoc) : gmap string ReportView :=
  map_of ((fun report => (rv_reportId report, report)) <$> related_reports st ns).

Definition resolves (st : Store) (reportId : string) : Prop :=
  exists r, r ∈ reports st ∧ r_reportId r = reportId.

Definition task_started (p : Process) : Process :=
  mkProcess (console p ++ [ConsoleLog "Running pending report notification task..."])
    (store p).

(** A small store used to exercise the statements. *)
Module Sample.
Definition alice : UserDoc := mkUser "u-alice" "alice" "Alice" "alice@example.org".
Definition bob : UserDoc := mkUser "u-bob" "bob" "Bob" "bob@example.org".
Definition roads : CategoryDoc := mkCategory "cat-1" "Roads" "Roads and pavements".
Definition pothole : ReportDoc :=
  mkReport "r-1" "u-alice" (JStr "cat-1") (JStr "Pothole") (JStr "Large pothole")
    "https://cdn.example.org/p1.jpg" None (JNum (129 # 10)) (JNum (776 # 10))
    (JStr "pending") 1000.
Definition lamp : ReportDoc :=
  mkReport "r-2" "u-alice" (JStr "cat-9") (JStr "Street lamp") (JStr "Lamp is out")
    "https://cdn.example.org/p2.jpg" None (JNum (13 # 1)) (JNum (77 # 1))
    (JStr "in-progress") 3000.
Definition leak : ReportDoc :=
  mkReport "r-3" "u-bob" (JStr "cat-1") (JStr "Leak") (JStr "Water leak")
    "https://cdn.example.org/p3.jpg" None (JNum (12 # 1)) (JNum (78 # 1))
    (JStr "pending") 2000.
Definition note1 : NotificationDoc :=
  mkNotification "n-1" "u-alice" "first" "status_update" (Some "r-1") "unread" 1500.
Definition note2 : NotificationDoc :=
  mkNotification "n-2" "u-alice" "second" "status_update" (Some "r-gone") "unread" 3500.
Definition note3 : NotificationDoc :=
  mkNotification "n-3" "u-bob" "third" "status_update" (Some "r-3") "unread" 2500.
Definition empty : Store := mkStore [] [] [] [roads] [alice; bob].
Definition st : Store :=
  mkStore [pothole; lamp; leak] [] [note1; note2; note3] [roads] [alice; bob].
Definition only_alice : Store := mkStore [pothole; lamp] [] [note1] [roads] [alice; bob].
Definition env : Env :=
  mkEnv (fun p => Some ("https://cdn.example.org/" +:+ p)) None None "uuid-1" 5000
    (fun _ => "0").
Definition photo_file : File := mkFile "public/temp/pothole.jpg".
Definition voice_file : File := mkFile "public/temp/pothole.ogg".
Definition req_ok : SubmitRequest :=
  mkSubmitRequest
    (mkSubmitBody (JStr "Pothole") (JStr "Large pothole") (JStr "cat-1")
       (JNum (129 # 10)) (JNum (776 # 10)))
    alice (Some (mkFiles (Some [photo_file]) (Some [voice_file]))).
(** A point on the equator, sent as a number. *)
Definition req_equator : SubmitRequest :=
  mkSubmitRequest
    (mkSubmitBody (JStr "Pothole") (JStr "Large pothole") (JStr "cat-1")
       (JNum 0) (JNum (776 # 10)))
    alice (Some (mkFiles (Some [photo_file]) None)).
(** The same point as a multipart form carries it: the text "0". *)
Definition req_equator_text : SubmitRequest :=
  mkSubmitRequest
    (mkSubmitBody (JStr "Pothole") (JStr "Large pothole") (JStr "cat-1")
       (JStr "0") (JStr "77.6"))
    alice (Some (mkFiles (Some [photo_file]) None)).
(** The same, with a notification collection that refuses the write. *)
Definition env_notification_down : Env :=
  mkEnv (upload_result env) None (Some (Rejection "Notification validation failed"))
    (uuid env) (now env) (number_to_string env).
(** The same, with an analytics recomputation that rejects. *)
Definition env_analytics_down : Env :=
  mkEnv (upload_result env) (Some (Rejection "analytics failed")) None
    (uuid env) (now env) (number_to_string env).
End Sample.

(** ** Vocabulary of the further statements *)

(** The categories fetched for a list of reports, and the map built from
    the answer, as [getMyReports] and [getAllReports] compute them. *)
Definition related_categories (st : Store) (rs : list ReportDoc) : list CategoryDoc :=
  filter (fun c => JStr (c_categoryId c)
                     ∈ uniq same_value_zero
                         (filter (fun id => truthy id) (r_categoryId <$> rs)))
    (categories st).
Definition category_map (st : Store) (rs : list ReportDoc) : gmap string CategoryDoc :=
  map_of ((fun category => (c_categoryId category, category)) <$> related_categories st rs).

(** The users fetched for a list of reports, and the map built from the
    answer, as [getAllReports] computes them. *)
Definition related_users (st : Store) (rs : list ReportDoc) : list UserView :=
  User.select <$>
    filter (fun u => u_userId u
                       ∈ uniq String.eqb
                           (filter (fun id => is_nonempty id) (r_userId <$> rs)))
      (users st).
Definition user_map (st : Store) (rs : list ReportDoc) : gmap string UserView :=
  map_of ((fun user => (uv_userId user, user)) <$> related_users st rs).

Definition own_reports (st : Store) (reqUser : UserDoc) : list ReportDoc :=
  filter (fun r => r_userId r = u_userId reqUser) (reports st).
Definition own_notifications (st : Store) (reqUser : UserDoc) : list NotificationDoc :=
  filter (fun n => n_userId n = u_userId reqUser) (notifications st).

Definition category_resolves (st : Store) (categoryId : JsVal) : Prop :=
  exists c, c ∈ categories st ∧ JStr (c_categoryId c) = categoryId.

(** The report [submitReport] hands to [Report.create]. *)
Definition submitted_report (env : Env) (req : SubmitRequest)
  (photoUrl : string) (voiceUrl : option string) : ReportDoc :=
  Report.new env
    (mkReportInput (u_userId (user req)) (categoryId (body req)) (title (body req))
       (description (body req)) photoUrl voiceUrl
       (locationLat (body req)) (locationLng (body req))).
Definition submitted_history (env : Env) (req : SubmitRequest) : ReportHistoryDoc :=
  mkReportHistory (uuid env) JNull (JStr "pending") (u_userId (user req))
    "Report submitted by user." (now env).

(** Every field of a notification but its read-status. *)
Definition without_status (n : NotificationDoc) : NotificationDoc :=
  Notification.set_status EmptyString n.


(** A listed report whose category id is a non-empty string carried by a
    category shows such a category; one whose category id matches no
    category keeps the raw value. *)
Definition category_joined (st : Store) (p : PopulatedReport) : Prop :=
  (forall cid,
      r_categoryId (pr_report p) = JStr cid ->
      cid ≠ EmptyString ->
      (exists c, c ∈ categories st ∧ c_categoryId c = cid) ->
      exists c, c ∈ categories st ∧ c_categoryId c = cid
                ∧ pr_categoryId p = CategoryObj c)
  ∧ ((forall c, c ∈ categories st -> JStr (c_categoryId c) ≠ r_categoryId (pr_report p)) ->
     pr_categoryId p = CategoryRaw (r_categoryId (pr_report p))).


(** Further requests and environments on the sample store. *)
Module Sample2.
Definition req_unknown_category : SubmitRequest :=
  mkSubmitRequest
    (mkSubmitBody (JStr "Pothole") (JStr "Large pothole") (JStr "cat-404")
       (JNum (129 # 10)) (JNum (776 # 10)))
    Sample.alice None.
Definition req_no_photo : SubmitRequest :=
  mkSubmitRequest (body Sample.req_ok) Sample.alice
    (Some (mkFiles (Some []) (Some [Sample.voice_file]))).
(** An upload service that stores images and refuses everything else. *)
Definition env_voice_down : Env :=
  mkEnv (fun p => if String.eqb p "public/temp/pothole.jpg"
                  then Some "https://cdn.example.org/pothole.jpg" else None)
    None None "uuid-2" 6000 (fun _ => "0").
(** A store in which two reports carry the same identifier. *)
Definition twin : ReportDoc :=
  mkReport "r-1" "u-bob" (JStr "cat-1") (JStr "Twin") (JStr "Second r-1")
    "https://cdn.example.org/p4.jpg" None (JNum (12 # 1)) (JNum (78 # 1))
    (JStr "pending") 4000.
End Sample2.

(** * Properties *)

Ltac run_monad :=
  unfold mbind, M_bind, mret, M_ret, bind, ret, gets, modify, throw, respond, settle
    in *; simpl in *.

Lemma sort_desc_nil {A} (createdAt : A -> Z) : sort_desc createdAt [] = [].
Proof. reflexivity. Qed.

(** C3: listing the caller's own reports when the caller owns none answers
    200 with an empty list, whereas the admin listing of an empty store
    throws the 404 error. *)
Theorem empty_listings_asymmetry (st1 st2 : Store) (reqUser : UserDoc) :
  Forall (fun r => r_userId r ≠ u_userId reqUser) (reports st1) ->
  reports st2 = [] ->
  getMyReports reqUser st1
    = (st1, Returned (mkResponse 200
                        (mkApiResponse 200 [] "User has not created any reports yet.")))
  ∧ getAllReports st2 = (st2, Thrown (ApiError 404 "No reports found.")).
Proof.
  intros Hown Hnone. split.
  - unfold getMyReports, Report.find_by_user, mbind, M_bind, bind, gets.
    assert (filter (fun r => r_userId r = u_userId reqUser) (reports st1) = []) as ->.
    { induction Hown as [|r l Hr _ IH]; [done|].
      rewrite filter_cons_False; done. }
    reflexivity.
  - unfold getAllReports, Report.find_all, mbind, M_bind, bind, gets.
    rewrite Hnone. reflexivity.
Qed.

Lemma empty_listings_asymmetry_witness :
  (Forall (fun r => r_userId r ≠ u_userId Sample.bob) (reports Sample.only_alice)
   ∧ reports Sample.empty = [])
  ∧ getMyReports Sample.bob Sample.only_alice
    = (Sample.only_alice,
       Returned (mkResponse 200
                   (mkApiResponse 200 [] "User has not created any reports yet.")))
  ∧ getAllReports Sample.empty = (Sample.empty, Thrown (ApiError 404 "No reports found.")).
Proof.
  assert (H1 : Forall (fun r => r_userId r ≠ u_userId Sample.bob)
                 (reports Sample.only_alice)).
  { repeat constructor; simpl; discriminate. }
  assert (H2 : reports Sample.empty = []) by reflexivity.
  split; [split; assumption|].
  exact (empty_listings_asymmetry Sample.only_alice Sample.empty Sample.bob H1 H2).
Defined.

(** ** Status update *)

(** The run of [updateReportStatus] on a report that is found, path by path. *)
Lemma updateReportStatus_found env reportId status description st i report0 :
  truthy status = true ->
  list_find (fun r => r_reportId r = reportId) (reports st) = Some (i, report0) ->
  let report := updated_report status description report0 in
  let st1 := set_reports (fun l => <[i := report]> l) st in
  updateReportStatus env reportId status description st =
    match owner_of st report with
    | Some u =>
        match notification_rejection env with
        | Some e => (st1, Thrown e)
        | None =>
            let st2 :=
              set_notifications
                (fun l => l ++ [Notification.new env (u_userId u)
                                  (status_message env (r_reportId report) status)
                                  "status_update" (r_reportId report)]) st1 in
            match analytics_rejection env with
            | Some e => (st2, Thrown e)
            | None => (st2, Returned (update_response report))
            end
        end
    | None =>
        match analytics_rejection env with
        | Some e => (st1, Thrown e)
        | None => (st1, Returned (update_response report))
        end
    end.
Proof.
  intros Hstatus Hfound report st1.
  unfold updateReportStatus, Report.findOne, Report.save, User.findOne,
    Notification.create, generateAnalytics, owner_of.
  rewrite Hstatus. run_monad. rewrite Hfound.
  fold report.
  destruct (head (filter _ (users st))) as [u|]; simpl.
  - destruct (notification_rejection env); simpl; [reflexivity|].
    destruct (analytics_rejection env); reflexivity.
  - destruct (analytics_rejection env); reflexivity.
Qed.

Lemma updateReportStatus_histories env reportId status description st :
  histories (updateReportStatus env reportId status description st).1 = histories st.
Proof.
  destruct (truthy status) eqn:Hs.
  - destruct (list_find (fun r => r_reportId r = reportId) (reports st))
      as [[i r0]|] eqn:Hf.
    + rewrite (updateReportStatus_found _ _ _ _ _ _ _ Hs Hf).
      repeat case_match; reflexivity.
    + unfold updateReportStatus, Report.findOne. rewrite Hs. run_monad.
      rewrite Hf. reflexivity.
  - unfold updateReportStatus. rewrite Hs. reflexivity.
Qed.

Lemma updateReportStatus_reports env reportId status description st i report0 :
  truthy status = true ->
  list_find (fun r => r_reportId r = reportId) (reports st) = Some (i, report0) ->
  reports (updateReportStatus env reportId status description st).1
    = <[i := updated_report status description report0]> (reports st).
Proof.
  intros Hs Hf. rewrite (updateReportStatus_found _ _ _ _ _ _ _ Hs Hf).
  repeat case_match; reflexivity.
Qed.

(** C1: the specification asks for one ReportHistory entry per status
    update; the update never writes to the history collection, whatever
    the request and the store.  On the sample store, moving report r-1 to "resolved"
    answers 200 and leaves the history collection empty. *)
Theorem status_update_writes_no_history :
  (forall env reportId status description st,
      histories (updateReportStatus env reportId status description st).1
        = histories st)
  ∧ (updateReportStatus Sample.env "r-1" (JStr "resolved") JUndefined Sample.st).2
      = Returned (update_response
                    (updated_report (JStr "resolved") JUndefined Sample.pothole))
  ∧ histories (updateReportStatus Sample.env "r-1" (JStr "resolved") JUndefined
                 Sample.st).1 = [].
Proof.
  split; [exact updateReportStatus_histories|].
  split; reflexivity.
Qed.

(** C2, as stated, fails: when the owner resolves and the creation of the
    notification rejects, the handler throws after the report was saved
    and no response is produced. *)
Lemma update_throws_when_notification_creation_fails :
  truthy (JStr "resolved") = true
  ∧ list_find (fun r => r_reportId r = "r-1") (reports Sample.st)
      = Some (0%nat, Sample.pothole)
  ∧ updateReportStatus Sample.env_notification_down "r-1" (JStr "resolved")
      JUndefined Sample.st
    = (set_reports
         (fun l => <[0%nat := updated_report (JStr "resolved") JUndefined Sample.pothole]> l)
         Sample.st,
       Thrown (Rejection "Notification validation failed"))
  ∧ ¬ (exists st' resp,
          updateReportStatus Sample.env_notification_down "r-1" (JStr "resolved")
            JUndefined Sample.st = (st', Returned resp)).
Proof.
  assert (E : updateReportStatus Sample.env_notification_down "r-1" (JStr "resolved")
                JUndefined Sample.st
              = (set_reports
                   (fun l => <[0%nat := updated_report (JStr "resolved") JUndefined
                                          Sample.pothole]> l) Sample.st,
                 Thrown (Rejection "Notification validation failed")))
    by reflexivity.
  repeat split; try reflexivity.
  intros (st' & resp & H). rewrite E in H. discriminate H.
Qed.

(** The analytics recomputation is awaited in the same way: when it
    rejects, the report is saved, the notification is written, and the
    rejection leaves the handler. *)
Example update_throws_when_analytics_rejects :
  match updateReportStatus Sample.env_analytics_down "r-1" (JStr "resolved")
          JUndefined Sample.st with
  | (st', Thrown e) =>
      e = Rejection "analytics failed"
      ∧ length (notifications st') = S (length (notifications Sample.st))
  | (_, Returned _) => False
  end.
Proof. vm_compute. split; reflexivity. Qed.

(** C2, amended: on an existing report and a truthy status, the handler
    answers 200 with the updated report whether or not a notification is
    created, as long as the creation of the notification (when the owner
    resolves) and the analytics recomputation do not throw; when the
    owner resolves and the creation rejects, the rejection leaves the
    handler, after the report was saved. *)
Theorem update_answers_200_unless_a_side_effect_throws
  env reportId status description st i report0 :
  truthy status = true ->
  list_find (fun r => r_reportId r = reportId) (reports st) = Some (i, report0) ->
  let report := updated_report status description report0 in
  let saved := set_reports (fun l => <[i := report]> l) st in
  (owner_of st report = None ∨ notification_rejection env = None ->
   analytics_rejection env = None ->
   exists st',
     updateReportStatus env reportId status description st
       = (st', Returned (update_response report))
     ∧ reports st' = reports saved
     ∧ r_status report = status)
  ∧ (forall u e,
        owner_of st report = Some u ->
        notification_rejection env = Some e ->
        updateReportStatus env reportId status description st = (saved, Thrown e)).
Proof.
  intros Hs Hf report saved.
  rewrite (updateReportStatus_found _ _ _ _ _ _ _ Hs Hf).
  fold report. fold saved. split.
  - intros Hn Ha. rewrite Ha.
    destruct (owner_of st report) as [u|].
    + destruct Hn as [Hn|Hn]; [discriminate|]. rewrite Hn.
      eexists; split; [reflexivity|]. split; reflexivity.
    + eexists; split; [reflexivity|]. split; reflexivity.
  - intros u e Hu He. rewrite Hu, He. reflexivity.
Qed.

Lemma update_answers_200_unless_a_side_effect_throws_witness :
  (truthy (JStr "resolved") = true
   ∧ list_find (fun r => r_reportId r = "r-1") (reports Sample.st)
       = Some (0%nat, Sample.pothole))
  ∧ (exists st',
        updateReportStatus Sample.env "r-1" (JStr "resolved") JUndefined Sample.st
          = (st', Returned (update_response
                              (updated_report (JStr "resolved") JUndefined Sample.pothole)))
        ∧ reports st'
          = <[0%nat := updated_report (JStr "resolved") JUndefined Sample.pothole]>
              (reports Sample.st)
        ∧ r_status (updated_report (JStr "resolved") JUndefined Sample.pothole)
          = JStr "resolved").
Proof.
  assert (H1 : truthy (JStr "resolved") = true) by reflexivity.
  assert (H2 : list_find (fun r => r_reportId r = "r-1") (reports Sample.st)
               = Some (0%nat, Sample.pothole)) by reflexivity.
  split; [split; assumption|].
  apply (update_answers_200_unless_a_side_effect_throws Sample.env "r-1"
           (JStr "resolved") JUndefined Sample.st 0%nat Sample.pothole H1 H2).
  - right; reflexivity.
  - reflexivity.
Defined.

(** C10: a falsy description in the body of a status update leaves the
    stored description as it was; a truthy one replaces it. *)
Theorem update_overwrites_description_only_when_truthy
  env reportId status description st i report0 :
  truthy status = true ->
  list_find (fun r => r_reportId r = reportId) (reports st) = Some (i, report0) ->
  exists report,
    reports (updateReportStatus env reportId status description st).1 !! i = Some report
    ∧ r_description report
      = (if truthy description then description else r_description report0)
    ∧ (truthy description = false -> r_description report = r_description report0).
Proof.
  intros Hs Hf. rewrite (updateReportStatus_reports _ _ _ _ _ _ _ Hs Hf).
  exists (updated_report status description report0).
  apply list_find_Some in Hf as (Hi & _ & _).
  split; [|split].
  - apply list_lookup_insert_eq. by eapply lookup_lt_Some.
  - reflexivity.
  - intros Hd. simpl. unfold or_else. rewrite Hd. reflexivity.
Qed.

Lemma update_overwrites_description_only_when_truthy_witness :
  (truthy (JStr "resolved") = true
   ∧ list_find (fun r => r_reportId r = "r-1") (reports Sample.st)
       = Some (0%nat, Sample.pothole))
  ∧ exists report,
      reports (updateReportStatus Sample.env "r-1" (JStr "resolved")
                 (JStr EmptyString) Sample.st).1 !! 0%nat = Some report
      ∧ r_description report
        = (if truthy (JStr EmptyString) then JStr EmptyString
           else r_description Sample.pothole)
      ∧ (truthy (JStr EmptyString) = false ->
         r_description report = r_description Sample.pothole).
Proof.
  assert (H1 : truthy (JStr "resolved") = true) by reflexivity.
  assert (H2 : list_find (fun r => r_reportId r = "r-1") (reports Sample.st)
               = Some (0%nat, Sample.pothole)) by reflexivity.
  split; [split; assumption|].
  exact (update_overwrites_description_only_when_truthy Sample.env "r-1"
           (JStr "resolved") (JStr EmptyString) Sample.st 0%nat Sample.pothole H1 H2).
Defined.

(** ** Submission *)

Lemma is_zero_falsy v : is_zero v -> truthy v = false.
Proof.
  intros (q & -> & Hq). simpl. unfold Qeq in Hq. simpl in Hq.
  assert (Qnum q = 0) as -> by lia. reflexivity.
Qed.

(** C9: a submission whose latitude or longitude is the number 0, or any of
    whose required fields is falsy, is rejected with the 400 error and the
    store is left as it was: no report is created. *)
Theorem submit_rejects_zero_and_falsy_fields env req st :
  is_zero (locationLat (body req)) ∨ is_zero (locationLng (body req))
  ∨ Exists (fun v => truthy v = false) (required_fields (body req)) ->
  exists msg, submitReport env req st = (st, Thrown (ApiError 400 msg)).
Proof.
  intros H.
  assert (Hex : Exists (fun v => truthy v = false) (required_fields (body req))).
  { destruct H as [H|[H|H]]; [| |exact H]; apply is_zero_falsy in H;
      unfold required_fields; rewrite !Exists_cons; tauto. }
  unfold required_fields in Hex. rewrite !Exists_cons, Exists_nil in Hex.
  unfold submitReport. eexists.
  destruct Hex as [->|[->|[->|[->|[->|[]]]]]]; simpl;
    rewrite ?orb_true_r; simpl; reflexivity.
Qed.

Lemma submit_rejects_zero_and_falsy_fields_witness :
  (is_zero (locationLat (body Sample.req_equator))
   ∨ is_zero (locationLng (body Sample.req_equator))
   ∨ Exists (fun v => truthy v = false) (required_fields (body Sample.req_equator)))
  ∧ exists msg,
      submitReport Sample.env Sample.req_equator Sample.st
        = (Sample.st, Thrown (ApiError 400 msg)).
Proof.
  assert (H : is_zero (locationLat (body Sample.req_equator))
              ∨ is_zero (locationLng (body Sample.req_equator))
              ∨ Exists (fun v => truthy v = false)
                  (required_fields (body Sample.req_equator))).
  { left. exists 0%Q. split; reflexivity. }
  split; [exact H|].
  exact (submit_rejects_zero_and_falsy_fields Sample.env Sample.req_equator Sample.st H).
Defined.

(** The presence test is on truthiness: the text "0" passes it. *)
Example submit_accepts_text_zero :
  match submitReport Sample.env Sample.req_equator_text Sample.st with
  | (st', Returned resp) =>
      http_status resp = 201
      ∧ r_location_lat (data (json resp)) = JStr "0"
      ∧ length (reports st') = S (length (reports Sample.st))
  | (_, Thrown _) => False
  end.
Proof. vm_compute. repeat split; reflexivity. Qed.

Lemma findOne_category_resolves (st : Store) (categoryId : JsVal) :
  (exists c, c ∈ categories st ∧ JStr (c_categoryId c) = categoryId) ->
  exists c, Category.findOne categoryId st = (st, Returned (Some c)).
Proof.
  intros (c & Hin & Hc). unfold Category.findOne, gets.
  destruct (filter (fun c => JStr (c_categoryId c) = categoryId) (categories st))
    as [|c' l] eqn:Hfl.
  - assert (c ∈ filter (fun c => JStr (c_categoryId c) = categoryId) (categories st))
      as Hc' by (apply list_elem_of_filter; done).
    rewrite Hfl in Hc'. by apply not_elem_of_nil in Hc'.
  - by exists c'.
Qed.

(** C4, as stated, fails: every condition of a valid submission holds and
    the analytics recomputation rejects; the report and its history record
    are written, the rejection leaves the handler and nothing is
    answered. *)
Lemma submit_throws_when_analytics_rejects :
  Forall (fun v => truthy v = true) (required_fields (body Sample.req_ok))
  ∧ (exists c, c ∈ categories Sample.st
               ∧ JStr (c_categoryId c) = categoryId (body Sample.req_ok))
  ∧ photo0 Sample.req_ok
    = Some (mkFiles (Some [Sample.photo_file]) (Some [Sample.voice_file]),
            Sample.photo_file)
  ∧ upload_result Sample.env_analytics_down (path Sample.photo_file)
    = Some "https://cdn.example.org/public/temp/pothole.jpg"
  ∧ voice_upload_succeeds Sample.env_analytics_down
      (mkFiles (Some [Sample.photo_file]) (Some [Sample.voice_file]))
  ∧ (submitReport Sample.env_analytics_down Sample.req_ok Sample.st).2
    = Thrown (Rejection "analytics failed")
  ∧ ¬ (exists st' resp,
          submitReport Sample.env_analytics_down Sample.req_ok Sample.st
          = (st', Returned resp)).
Proof.
  assert (E : (submitReport Sample.env_analytics_down Sample.req_ok Sample.st).2
              = Thrown (Rejection "analytics failed")) by reflexivity.
  split; [repeat constructor|].
  split; [exists Sample.roads; split; [left|reflexivity]|].
  split; [reflexivity|]. split; [reflexivity|].
  split; [intros _; eexists; reflexivity|].
  split; [exact E|].
  intros (st' & resp & H). rewrite H in E. discriminate E.
Qed.

(** C4, amended: a valid submission creates one report and one history
    record (previous status null, new status "pending"); it answers 201
    with the created report when the analytics recomputation that follows
    resolves, and when that rejects the rejection leaves the handler with
    both records written. *)
Theorem submit_valid_creates_report_and_history env req st fs photoFile photoUrl :
  Forall (fun v => truthy v = true) (required_fields (body req)) ->
  (exists c, c ∈ categories st ∧ JStr (c_categoryId c) = categoryId (body req)) ->
  photo0 req = Some (fs, photoFile) ->
  upload_result env (path photoFile) = Some photoUrl ->
  voice_upload_succeeds env fs ->
  exists newReport h st',
    (submitReport env req st).1 = st'
    ∧ reports st' = reports st ++ [newReport]
    ∧ histories st' = histories st ++ [h]
    ∧ (h_reportId h = r_reportId newReport
       ∧ h_previousStatus h = JNull
       ∧ h_newStatus h = JStr "pending"
       ∧ h_changedByUserId h = u_userId (user req))
    ∧ (r_userId newReport = u_userId (user req)
       ∧ r_title newReport = title (body req)
       ∧ r_description newReport = description (body req)
       ∧ r_categoryId newReport = categoryId (body req)
       ∧ r_location_lat newReport = locationLat (body req)
       ∧ r_location_lng newReport = locationLng (body req)
       ∧ r_photo_url newReport = photoUrl
       ∧ r_status newReport = JStr "pending")
    ∧ notifications st' = notifications st
    ∧ categories st' = categories st
    ∧ users st' = users st
    ∧ (analytics_rejection env = None ->
       submitReport env req st
       = (st', Returned (mkResponse 201
                           (mkApiResponse 201 newReport "Report submitted successfully."))))
    ∧ (forall e, analytics_rejection env = Some e ->
                 submitReport env req st = (st', Thrown e)).
Proof.
  intros Hfields Hcat Hphoto Hup Hvoice.
  assert (exists voiceUrl,
             submitReport env req st
             = (set_histories (fun l => l ++ [submitted_history env req])
                  (set_reports
                     (fun l => l ++ [submitted_report env req photoUrl voiceUrl]) st),
                match analytics_rejection env with
                | None =>
                    Returned (mkResponse 201
                                (mkApiResponse 201
                                   (submitted_report env req photoUrl voiceUrl)
                                   "Report submitted successfully."))
                | Some e => Thrown e
                end)) as [voiceUrl Hrun].
  { unfold required_fields in Hfields. rewrite !Forall_cons in Hfields.
    destruct Hfields as (Ht & Hd & Hc & Hlat & Hlng & _).
    destruct (findOne_category_resolves _ _ Hcat) as (c & Hfind).
    unfold submitReport. rewrite Ht, Hd, Hc, Hlat, Hlng. simpl.
    unfold mbind at 1, M_bind, bind. rewrite Hfind. rewrite Hphoto.
    unfold uploadOnCloudinary, generateAnalytics, Report.create, ReportHistory.create.
    run_monad. rewrite Hup.
    unfold voice_upload_succeeds in Hvoice.
    destruct (voice0_path fs) as [voicePath|]; simpl in *.
    - destruct (negb (String.eqb voicePath EmptyString)); simpl.
      + destruct (Hvoice eq_refl) as [url Hurl]. rewrite Hurl. simpl.
        exists (Some url). by destruct (analytics_rejection env).
      + exists None. by destruct (analytics_rejection env).
    - exists None. by destruct (analytics_rejection env). }
  rewrite Hrun.
  exists (submitted_report env req photoUrl voiceUrl), (submitted_history env req).
  eexists. split; [reflexivity|]. simpl.
  repeat split; try done.
  - intros Ha. rewrite Ha. reflexivity.
  - intros e Ha. rewrite Ha. reflexivity.
Qed.

Lemma submit_valid_creates_report_and_history_witness :
  (Forall (fun v => truthy v = true) (required_fields (body Sample.req_ok))
   ∧ (exists c, c ∈ categories Sample.st
                ∧ JStr (c_categoryId c) = categoryId (body Sample.req_ok))
   ∧ photo0 Sample.req_ok
     = Some (mkFiles (Some [Sample.photo_file]) (Some [Sample.voice_file]),
             Sample.photo_file)
   ∧ upload_result Sample.env (path Sample.photo_file)
     = Some "https://cdn.example.org/public/temp/pothole.jpg"
   ∧ voice_upload_succeeds Sample.env
       (mkFiles (Some [Sample.photo_file]) (Some [Sample.voice_file])))
  ∧ exists newReport h st',
      submitReport Sample.env Sample.req_ok Sample.st
        = (st', Returned (mkResponse 201
                            (mkApiResponse 201 newReport "Report submitted successfully.")))
      ∧ reports st' = reports Sample.st ++ [newReport]
      ∧ histories st' = histories Sample.st ++ [h]
      ∧ (h_reportId h = r_reportId newReport
         ∧ h_previousStatus h = JNull
         ∧ h_newStatus h = JStr "pending"
         ∧ h_changedByUserId h = u_userId (user Sample.req_ok))
      ∧ r_status newReport = JStr "pending".
Proof.
  assert (H1 : Forall (fun v => truthy v = true) (required_fields (body Sample.req_ok))).
  { repeat constructor. }
  assert (H2 : exists c, c ∈ categories Sample.st
                         ∧ JStr (c_categoryId c) = categoryId (body Sample.req_ok)).
  { exists Sample.roads. split; [left|reflexivity]. }
  assert (H3 : photo0 Sample.req_ok
               = Some (mkFiles (Some [Sample.photo_file]) (Some [Sample.voice_file]),
                       Sample.photo_file)) by reflexivity.
  assert (H4 : upload_result Sample.env (path Sample.photo_file)
               = Some "https://cdn.example.org/public/temp/pothole.jpg") by reflexivity.
  assert (H5 : voice_upload_succeeds Sample.env
                 (mkFiles (Some [Sample.photo_file]) (Some [Sample.voice_file]))).
  { intros _. eexists. reflexivity. }
  split; [tauto|].
  destruct (submit_valid_creates_report_and_history Sample.env Sample.req_ok Sample.st
              _ _ _ H1 H2 H3 H4 H5)
    as (newReport & h & st' & _ & Hr & Hh & Hhist & Hrep & _ & _ & _ & H201 & _).
  exists newReport, h, st'.
  split; [exact (H201 eq_refl)|]. split; [exact Hr|]. split; [exact Hh|].
  split; [exact Hhist|]. apply Hrep.
Defined.

(** ** Mark as read *)

(** C5: marking as read changes the read-status of the notification found
    by id and owner, and nothing else, and answers 200 with it; when no
    notification has that id and that owner, the answer is the 404 error
    and the store is unchanged. *)
Theorem markNotificationAsRead_owned_or_404 notificationId reqUser st :
  ((exists n, n ∈ notifications st ∧ owned_by notificationId (u_userId reqUser) n) ->
   exists i n,
     notifications st !! i = Some n
     ∧ owned_by notificationId (u_userId reqUser) n
     ∧ markNotificationAsRead notificationId reqUser st
       = (set_notifications (fun l => <[i := Notification.set_status "read" n]> l) st,
          Returned (mkResponse 200
                      (mkApiResponse 200 (Notification.set_status "read" n)
                         "Notification marked as read.")))
     ∧ n_status (Notification.set_status "read" n) = "read"
     ∧ (n_notificationId (Notification.set_status "read" n) = n_notificationId n
        ∧ n_userId (Notification.set_status "read" n) = n_userId n
        ∧ n_message (Notification.set_status "read" n) = n_message n
        ∧ n_type (Notification.set_status "read" n) = n_type n
        ∧ n_reportId (Notification.set_status "read" n) = n_reportId n
        ∧ n_createdAt (Notification.set_status "read" n) = n_createdAt n))
  ∧ ((forall n, n ∈ notifications st -> ¬ owned_by notificationId (u_userId reqUser) n) ->
     markNotificationAsRead notificationId reqUser st
       = (st, Thrown (ApiError 404 "Notification not found or user not authorized."))).
Proof.
  unfold markNotificationAsRead, Notification.findOneAndUpdate. run_monad.
  split.
  - intros (n0 & Hin & Hown).
    unfold owned_by in *.
    destruct (list_find_elem_of
                (fun n => n_notificationId n = notificationId
                          ∧ n_userId n = u_userId reqUser)
                (notifications st) n0 Hin Hown) as [[i n] Hfind].
    rewrite Hfind. simpl.
    apply list_find_Some in Hfind as (Hi & Hn & _).
    exists i, n. repeat split; try done; apply Hn.
  - intros Hnone.
    destruct (list_find _ (notifications st)) as [[i n]|] eqn:Hfind; [|reflexivity].
    apply list_find_Some in Hfind as (Hi & Hn & _).
    exfalso. eapply Hnone; [|exact Hn]. eapply list_elem_of_lookup_2; eauto.
Qed.

Lemma markNotificationAsRead_owned_or_404_witness :
  (exists i n,
      notifications Sample.st !! i = Some n
      ∧ owned_by "n-1" "u-alice" n
      ∧ markNotificationAsRead "n-1" Sample.alice Sample.st
        = (set_notifications (fun l => <[i := Notification.set_status "read" n]> l)
             Sample.st,
           Returned (mkResponse 200
                       (mkApiResponse 200 (Notification.set_status "read" n)
                          "Notification marked as read."))))
  ∧ markNotificationAsRead "n-1" Sample.bob Sample.st
    = (Sample.st, Thrown (ApiError 404 "Notification not found or user not authorized.")).
Proof.
  split.
  - destruct (markNotificationAsRead_owned_or_404 "n-1" Sample.alice Sample.st)
      as [Hfound _].
    destruct Hfound as (i & n & Hi & Hown & Hrun & _).
    + exists Sample.note1. split; [left|split; reflexivity].
    + exists i, n. split; [exact Hi|]. split; [exact Hown|exact Hrun].
  - destruct (markNotificationAsRead_owned_or_404 "n-1" Sample.bob Sample.st)
      as [_ Hnone].
    apply Hnone. intros n Hn [Hid Hu]. simpl in Hn.
    repeat (apply elem_of_cons in Hn as [->|Hn]); try discriminate.
    by apply not_elem_of_nil in Hn.
Defined.

(** ** Listings *)

#[global] Instance newer_first_trans {A} (createdAt : A -> Z) :
  Transitive (newer_first createdAt).
Proof. intros a b c. unfold newer_first. lia. Qed.

#[global] Instance newer_first_total {A} (createdAt : A -> Z) :
  Total (newer_first createdAt).
Proof. intros a b. unfold newer_first. lia. Qed.

Lemma sort_desc_newest_first {A} (createdAt : A -> Z) (l : list A) :
  newest_first createdAt (sort_desc createdAt l).
Proof. apply StronglySorted_merge_sort; apply _. Qed.

Lemma newest_first_fmap {A B} (f : A -> B) (ca : A -> Z) (cb : B -> Z) (l : list A) :
  (forall a, cb (f a) = ca a) ->
  newest_first ca l -> newest_first cb (f <$> l).
Proof.
  intros Hf. apply StronglySorted_fmap. intros x y. unfold newer_first.
  rewrite !Hf. done.
Qed.

(** C6: whatever the user and the store, the list answered by the own-report
    listing, by the admin listing (when it answers one) and by the
    own-notification listing goes from the newest creation time to the
    oldest. *)
Theorem listings_are_newest_first reqUser st :
  (exists resp,
      getMyReports reqUser st = (st, Returned resp)
      ∧ http_status resp = 200
      ∧ newest_first pr_createdAt (data (json resp)))
  ∧ ((reports st = []
      ∧ getAllReports st = (st, Thrown (ApiError 404 "No reports found.")))
     ∨ (exists resp,
           getAllReports st = (st, Returned resp)
           ∧ http_status resp = 200
           ∧ newest_first pr_createdAt (data (json resp))))
  ∧ (exists resp,
        getMyNotifications reqUser st = (st, Returned resp)
        ∧ http_status resp = 200
        ∧ newest_first pn_createdAt (data (json resp))).
Proof.
  split; [|split].
  - unfold getMyReports, Report.find_by_user, Category.find_in. run_monad.
    case_bool_decide.
    + eexists. split; [reflexivity|]. split; [reflexivity|]. constructor.
    + eexists. split; [reflexivity|]. split; [reflexivity|]. simpl.
      apply (newest_first_fmap _ r_createdAt); [done|].
      apply sort_desc_newest_first.
  - unfold getAllReports, Report.find_all, User.find_in, Category.find_in. run_monad.
    case_bool_decide as Hlen.
    + left. split; [|reflexivity].
      apply length_zero_iff_nil in Hlen.
      apply Permutation_nil_r. rewrite <- Hlen. symmetry.
      apply merge_sort_Permutation.
    + right. eexists. split; [reflexivity|]. split; [reflexivity|]. simpl.
      apply (newest_first_fmap _ r_createdAt); [done|].
      apply sort_desc_newest_first.
  - unfold getMyNotifications, Notification.find_by_user, Report.find_in. run_monad.
    case_bool_decide.
    + eexists. split; [reflexivity|]. split; [reflexivity|]. constructor.
    + eexists. split; [reflexivity|]. split; [reflexivity|]. simpl.
      apply (newest_first_fmap _ n_createdAt); [done|].
      apply sort_desc_newest_first.
Qed.

Example my_reports_of_alice :
  (getMyReports Sample.alice Sample.st).2
  = Returned (mkResponse 200
      (mkApiResponse 200
         [mkPopulatedReport Sample.lamp (UserFull Sample.alice)
            (CategoryRaw (JStr "cat-9"));
          mkPopulatedReport Sample.pothole (UserFull Sample.alice)
            (CategoryObj Sample.roads)]
         "User reports fetched successfully.")).
Proof. vm_compute. reflexivity. Qed.

(** ** Population of notifications *)

Lemma elem_of_uniq_from {A} (eqb : A -> A -> bool) (seen l : list A) (x : A) :
  (forall a b, eqb a b = true <-> a = b) ->
  x ∈ uniq_from eqb seen l <-> x ∈ l ∧ x ∉ seen.
Proof.
  intros Heqb. revert seen. induction l as [|y l IH]; intros seen; simpl.
  - split; [by intros ?%not_elem_of_nil|by intros [?%not_elem_of_nil _]].
  - destruct (existsb (eqb y) seen) eqn:Hex.
    + apply existsb_exists in Hex as (z & Hz%list_elem_of_In & Hyz%Heqb). subst z.
      rewrite IH, elem_of_cons. split; [tauto|].
      intros [[->|Hx] Hns]; [done|tauto].
    + assert (y ∉ seen) as Hy.
      { intros Hin%list_elem_of_In.
        assert (existsb (eqb y) seen = true) as Ht
            by (apply existsb_exists; exists y; split; [done|by apply Heqb]).
        congruence. }
      rewrite !elem_of_cons, IH, elem_of_cons. split.
      * intros [->|[Hx Hns]]; [tauto|]. split; [tauto|]. intros Hs. apply Hns. tauto.
      * intros [[->|Hx] Hns]; [tauto|].
        destruct (eqb x y) eqn:Exy; [left; by apply Heqb|].
        right. split; [done|]. intros [Heq|Hs]; [|done].
        subst y. assert (eqb x x = true) by (by apply Heqb). congruence.
Qed.

Lemma elem_of_uniq {A} (eqb : A -> A -> bool) (l : list A) (x : A) :
  (forall a b, eqb a b = true <-> a = b) ->
  x ∈ uniq eqb l <-> x ∈ l.
Proof.
  intros Heqb. unfold uniq. rewrite elem_of_uniq_from by done.
  split; [tauto|]. intros Hx. split; [done|]. apply not_elem_of_nil.
Qed.

Lemma map_of_acc_lookup {V} (entries : list (string * V)) (m : gmap string V) k v :
  foldl (fun m kv => <[kv.1 := kv.2]> m) m entries !! k = Some v ->
  (k, v) ∈ entries ∨ m !! k = Some v.
Proof.
  revert m. induction entries as [|[k' v'] l IH]; intros m; simpl; [tauto|].
  intros [Hin|Hm]%IH; [left; by right|].
  destruct (decide (k' = k)) as [->|Hne].
  - rewrite lookup_insert_eq in Hm. injection Hm as ->. left; by left.
  - rewrite lookup_insert_ne in Hm by done. tauto.
Qed.

Lemma map_of_acc_is_Some {V} (entries : list (string * V)) (m : gmap string V) k :
  (is_Some (m !! k) ∨ exists v, (k, v) ∈ entries) ->
  is_Some (foldl (fun m kv => <[kv.1 := kv.2]> m) m entries !! k).
Proof.
  revert m. induction entries as [|[k' v'] l IH]; intros m; simpl.
  - intros [H|[v H%not_elem_of_nil]]; done.
  - intros H. apply IH.
    destruct (decide (k' = k)) as [->|Hne].
    + left. rewrite lookup_insert_eq. by eexists.
    + destruct H as [H|[v [Heq|Hin]%elem_of_cons]].
      * left. by rewrite lookup_insert_ne.
      * congruence.
      * right. by exists v.
Qed.

Lemma map_of_lookup_Some {V} (entries : list (string * V)) k v :
  map_of entries !! k = Some v -> (k, v) ∈ entries.
Proof.
  intros [H|H]%map_of_acc_lookup; [done|]. by rewrite lookup_empty in H.
Qed.

Lemma map_of_lookup_is_Some {V} (entries : list (string * V)) k v :
  (k, v) ∈ entries -> is_Some (map_of entries !! k).
Proof. intros H. apply map_of_acc_is_Some. right. by exists v. Qed.

Lemma report_map_lookup_Some st ns reportId rv :
  report_map st ns !! reportId = Some rv ->
  exists r, r ∈ reports st ∧ r_reportId r = reportId ∧ rv = Report.select r.
Proof.
  intros H%map_of_lookup_Some.
  apply list_elem_of_fmap in H as (rv' & [= -> ->] & Hrv).
  apply list_elem_of_fmap in Hrv as (r & -> & Hr).
  apply list_elem_of_filter in Hr as [_ Hr].
  exists r. done.
Qed.

Lemma report_ref_resolved st ns n reportId :
  n ∈ ns ->
  n_reportId n = Some reportId ->
  reportId ≠ EmptyString ->
  resolves st reportId ->
  exists r, r ∈ reports st ∧ r_reportId r = reportId
            ∧ report_ref (report_map st ns) n = ReportSelected (Report.select r).
Proof.
  intros Hn Hid Hne (r & Hr & Hrid).
  assert (is_Some (report_map st ns !! reportId)) as [rv Hrv].
  { apply (map_of_lookup_is_Some _ _ (Report.select r)).
    apply list_elem_of_fmap. exists (Report.select r). split; [by rewrite <- Hrid|].
    apply list_elem_of_fmap. exists r. split; [done|].
    apply list_elem_of_filter. split; [|done].
    apply elem_of_uniq; [intros a b; apply bool_decide_eq_true|].
    apply list_elem_of_filter. split.
    - rewrite Hrid. simpl. apply Is_true_true, negb_true_iff, String.eqb_neq. done.
    - rewrite Hrid, <- Hid. apply list_elem_of_fmap. by exists n. }
  destruct (report_map_lookup_Some _ _ _ _ Hrv) as (r' & Hr' & Hrid' & ->).
  exists r'. split; [done|]. split; [done|].
  unfold report_ref. rewrite Hid. simpl. by rewrite Hrv.
Qed.


Lemma sort_desc_Permutation {A} (createdAt : A -> Z) (l : list A) :
  sort_desc createdAt l ≡ₚ l.
Proof. apply merge_sort_Permutation. Qed.

Lemma fmap_fmap_cancel {A B} (f : A -> B) (g : B -> A) (l : list A) :
  (forall a, g (f a) = a) -> g <$> (f <$> l) = l.
Proof.
  intros Hgf. induction l as [|a l IH]; [reflexivity|].
  rewrite !fmap_cons, Hgf, IH. reflexivity.
Qed.

Lemma getMyNotifications_run reqUser st :
  let ns := sort_desc n_createdAt
              (filter (fun n => n_userId n = u_userId reqUser) (notifications st)) in
  exists msg,
    getMyNotifications reqUser st
    = (st, Returned (mkResponse 200
                       (mkApiResponse 200
                          ((fun n => mkPopulatedNotification n (report_ref (report_map st ns) n))
                             <$> ns) msg))).
Proof.
  intros ns. unfold getMyNotifications, Notification.find_by_user, Report.find_in.
  run_monad. fold ns. case_bool_decide as Hlen.
  - apply length_zero_iff_nil in Hlen. rewrite Hlen. by eexists.
  - by eexists.
Qed.



Example my_notifications_of_alice :
  (getMyNotifications Sample.alice Sample.st).2
  = Returned (mkResponse 200
      (mkApiResponse 200
         [mkPopulatedNotification Sample.note2 (ReportRaw (Some "r-gone"));
          mkPopulatedNotification Sample.note1
            (ReportSelected (mkReportView "r-1" (JStr "Pothole") (JStr "pending")))]
         "Notifications fetched successfully.")).
Proof. vm_compute. reflexivity. Qed.

(** ** The scheduled task *)

Lemma notification_task_run task p :
  notification_task task p =
    match task (task_started p) with
    | (p1, Returned _) =>
        (mkProcess (console p1 ++ [ConsoleLog "Notification task completed successfully."])
           (store p1), Returned tt)
    | (p1, Thrown e) =>
        (mkProcess (console p1 ++ [ConsoleError "Error during notification task:" e])
           (store p1), Returned tt)
    end.
Proof.
  unfold notification_task, try_catch, console_log, console_error. run_monad.
  fold (task_started p). destruct (task (task_started p)) as [p1 [[]|e]]; reflexivity.
Qed.

(** C8: whatever the dispatch routine does, the scheduled callback returns
    normally; an error it raises is caught and written to the console; and
    the scheduler completes every tick, whichever runs failed. *)
Theorem scheduled_task_contains_errors :
  (forall task p, exists p', notification_task task p = (p', Returned tt))
  ∧ (forall task p p1 e,
        task (task_started p) = (p1, Thrown e) ->
        notification_task task p
        = (mkProcess (console p1 ++ [ConsoleError "Error during notification task:" e])
             (store p1), Returned tt))
  ∧ (forall ticks p,
        exists p', cron_schedule notification_task ticks p
                   = (p', Returned (length ticks))).
Proof.
  split; [|split].
  - intros task p. rewrite notification_task_run.
    destruct (task (task_started p)) as [p1 [a|e]]; eauto.
  - intros task p p1 e H. rewrite notification_task_run, H. reflexivity.
  - induction ticks as [|task later IH]; intros p; simpl.
    + by eexists.
    + run_monad. rewrite notification_task_run.
      destruct (task (task_started p)) as [p1 [a|e]];
        match goal with |- context [cron_schedule _ _ ?q] =>
          destruct (IH q) as [p' ->] end; by eexists.
Qed.

(** A dispatch that fails at the first tick and succeeds at the second:
    both runs take place. *)
Example two_ticks_first_fails :
  cron_schedule notification_task
    [throw (Rejection "mail server down"); mret tt]
    (mkProcess [] Sample.st)
  = (mkProcess
       [ConsoleLog "Running pending report notification task...";
        ConsoleError "Error during notification task:" (Rejection "mail server down");
        ConsoleLog "Running pending report notification task...";
        ConsoleLog "Notification task completed successfully."]
       Sample.st,
     Returned 2%nat).
Proof. reflexivity. Qed.

(** * Further properties *)

(** ** Status update: rejections, frame, notification *)

Lemma updateReportStatus_not_found env reportId status description st :
  truthy status = true ->
  (forall r, r ∈ reports st -> r_reportId r ≠ reportId) ->
  updateReportStatus env reportId status description st
    = (st, Thrown (ApiError 404 "Report not found.")).
Proof.
  intros Hs Hnone. unfold updateReportStatus, Report.findOne. rewrite Hs. run_monad.
  assert (list_find (fun r => r_reportId r = reportId) (reports st) = None) as ->;
    [|reflexivity].
  apply list_find_None, Forall_forall. exact Hnone.
Qed.

(** X1: a status update without a truthy status, or for an id that no
    report carries, is rejected with 400 or 404 and leaves the store as it
    was (no notification is created); the missing status is reported even
    when the report does not exist. *)
Theorem update_rejections_leave_the_store env reportId status description st :
  truthy status = false ∨ (forall r, r ∈ reports st -> r_reportId r ≠ reportId) ->
  exists code msg,
    updateReportStatus env reportId status description st
      = (st, Thrown (ApiError code msg))
    ∧ (code = 400 ∨ code = 404)
    ∧ (truthy status = false -> code = 400)
    ∧ (truthy status = true -> code = 404).
Proof.
  intros H. destruct (truthy status) eqn:Hs.
  - destruct H as [H|H]; [discriminate|].
    exists 404, "Report not found.". split.
    + apply updateReportStatus_not_found; done.
    + split; [by right|]. split; [discriminate|done].
  - exists 400, "Status is required.". split.
    + unfold updateReportStatus. rewrite Hs. reflexivity.
    + split; [by left|]. split; [done|discriminate].
Qed.

Lemma update_rejections_leave_the_store_witness :
  (truthy (JStr "resolved") = false
   ∨ (forall r, r ∈ reports Sample.st -> r_reportId r ≠ "r-404"))
  ∧ exists code msg,
      updateReportStatus Sample.env "r-404" (JStr "resolved") JUndefined Sample.st
        = (Sample.st, Thrown (ApiError code msg))
      ∧ (code = 400 ∨ code = 404)
      ∧ (truthy (JStr "resolved") = false -> code = 400)
      ∧ (truthy (JStr "resolved") = true -> code = 404).
Proof.
  assert (H : truthy (JStr "resolved") = false
              ∨ (forall r, r ∈ reports Sample.st -> r_reportId r ≠ "r-404")).
  { right. intros r Hr. simpl in Hr.
    repeat (apply elem_of_cons in Hr as [->|Hr]); try discriminate.
    by apply not_elem_of_nil in Hr. }
  split; [exact H|].
  exact (update_rejections_leave_the_store Sample.env "r-404" (JStr "resolved")
           JUndefined Sample.st H).
Defined.




Lemma head_filter_Some {A} (P : A -> Prop) `{forall x, Decision (P x)} (l : list A) x :
  head (filter P l) = Some x -> x ∈ l ∧ P x.
Proof.
  intros Hh.
  assert (x ∈ filter P l) as Hx.
  { destruct (filter P l) as [|y l']; [discriminate|]. injection Hh as ->. left. }
  apply list_elem_of_filter in Hx. tauto.
Qed.

(** X3: a status update that finds its report writes at most one
    notification: none when the owner of the report is not a known user
    or when the creation rejects, and otherwise exactly one, appended for
    the owner, unread, of type "status_update", naming the report and the
    new status. *)
Theorem update_notifies_the_owner_at_most_once
  env reportId status description st i report0 :
  truthy status = true ->
  list_find (fun r => r_reportId r = reportId) (reports st) = Some (i, report0) ->
  let st' := (updateReportStatus env reportId status description st).1 in
  (owner_of st report0 = None ∨ is_Some (notification_rejection env) ->
   notifications st' = notifications st)
  ∧ (forall u,
        owner_of st report0 = Some u ->
        notification_rejection env = None ->
        exists n,
          notifications st' = notifications st ++ [n]
          ∧ n_userId n = r_userId report0
          ∧ u ∈ users st
          ∧ u_userId u = r_userId report0
          ∧ n_reportId n = Some reportId
          ∧ n_type n = "status_update"
          ∧ n_status n = "unread"
          ∧ n_message n = status_message env reportId status).
Proof.
  intros Hs Hf st'. subst st'.
  rewrite (updateReportStatus_found _ _ _ _ _ _ _ Hs Hf).
  apply list_find_Some in Hf as (_ & Hid & _).
  change (owner_of st (updated_report status description report0))
    with (owner_of st report0).
  split.
  - intros [Hnone|[e He]].
    + rewrite Hnone. by destruct (analytics_rejection env).
    + rewrite He.
      destruct (owner_of st report0); [done|by destruct (analytics_rejection env)].
  - intros u Hu Hn. rewrite Hu, Hn.
    apply head_filter_Some in Hu as [Hin Huid].
    exists (Notification.new env (u_userId u)
              (status_message env (r_reportId report0) status)
              "status_update" (r_reportId report0)).
    split; [destruct (analytics_rejection env); reflexivity|].
    simpl. rewrite Hid. done.
Qed.

Lemma update_notifies_the_owner_at_most_once_witness :
  (truthy (JStr "resolved") = true
   ∧ list_find (fun r => r_reportId r = "r-3") (reports Sample.st)
       = Some (2%nat, Sample.leak))
  ∧ exists n,
      notifications (updateReportStatus Sample.env "r-3" (JStr "resolved") JUndefined
                       Sample.st).1 = notifications Sample.st ++ [n]
      ∧ n_userId n = "u-bob"
      ∧ n_reportId n = Some "r-3"
      ∧ n_status n = "unread".
Proof.
  assert (H1 : truthy (JStr "resolved") = true) by reflexivity.
  assert (H2 : list_find (fun r => r_reportId r = "r-3") (reports Sample.st)
               = Some (2%nat, Sample.leak)) by reflexivity.
  split; [split; assumption|].
  destruct (update_notifies_the_owner_at_most_once Sample.env "r-3" (JStr "resolved")
              JUndefined Sample.st 2%nat Sample.leak H1 H2) as [_ Hcreated].
  destruct (Hcreated Sample.bob eq_refl eq_refl)
    as (n & Hn & Hu & _ & _ & Hr & _ & Hst & _).
  exists n. split; [exact Hn|]. split; [exact Hu|]. split; [exact Hr|exact Hst].
Defined.

(** ** Submission: rejections and atomicity *)

Lemma findOne_category_unknown (st : Store) (categoryId : JsVal) :
  ¬ category_resolves st categoryId ->
  Category.findOne categoryId st = (st, Returned None).
Proof.
  intros Hnone. unfold Category.findOne, gets.
  destruct (head (filter (fun c => JStr (c_categoryId c) = categoryId) (categories st)))
    as [c|] eqn:Hh; [|reflexivity].
  exfalso. apply Hnone. exists c. by apply head_filter_Some in Hh.
Qed.

Lemma required_fields_pass (b : SubmitBody) :
  Forall (fun v => truthy v = true) (required_fields b) ->
  negb (truthy (title b)) || negb (truthy (description b))
  || negb (truthy (categoryId b)) || negb (truthy (locationLat b))
  || negb (truthy (locationLng b)) = false.
Proof.
  unfold required_fields. rewrite !Forall_cons.
  intros (-> & -> & -> & -> & -> & _). reflexivity.
Qed.

(** X4: a submission with every required field, whose category id matches
    no category, is rejected with 404 before the files are looked at, and
    nothing is written. *)
Theorem submit_unknown_category_is_404 env req st :
  Forall (fun v => truthy v = true) (required_fields (body req)) ->
  ¬ category_resolves st (categoryId (body req)) ->
  submitReport env req st
    = (st, Thrown (ApiError 404 "The specified categoryId does not exist.")).
Proof.
  intros Hfields Hcat. unfold submitReport.
  rewrite (required_fields_pass _ Hfields).
  unfold mbind at 1, M_bind, bind.
  rewrite (findOne_category_unknown _ _ Hcat). reflexivity.
Qed.

(** X5: a submission with every required field and a known category, but
    without a photo file (no files, no photo entry, or an empty one), is
    rejected with 400 and nothing is written. *)
Theorem submit_without_photo_is_400 env req st :
  Forall (fun v => truthy v = true) (required_fields (body req)) ->
  category_resolves st (categoryId (body req)) ->
  photo0 req = None ->
  submitReport env req st
    = (st, Thrown (ApiError 400 "A photo is required for the report.")).
Proof.
  intros Hfields Hcat Hphoto. unfold submitReport.
  rewrite (required_fields_pass _ Hfields).
  destruct (findOne_category_resolves _ _ Hcat) as (c & Hfind).
  unfold mbind at 1, M_bind, bind. rewrite Hfind, Hphoto. reflexivity.
Qed.

(** X6: when the upload service answers nothing for the photo, or for a
    voice recording that was attached, the submission is rejected with 500
    and neither a report nor a history record is written. *)
Theorem submit_upload_failure_is_500 env req st fs photoFile :
  Forall (fun v => truthy v = true) (required_fields (body req)) ->
  category_resolves st (categoryId (body req)) ->
  photo0 req = Some (fs, photoFile) ->
  upload_result env (path photoFile) = None
  ∨ (exists voicePath, voice0_path fs = Some voicePath
                       ∧ truthy_str (Some voicePath) = true
                       ∧ upload_result env voicePath = None) ->
  exists msg, submitReport env req st = (st, Thrown (ApiError 500 msg)).
Proof.
  intros Hfields Hcat Hphoto Hfail. unfold submitReport.
  rewrite (required_fields_pass _ Hfields).
  destruct (findOne_category_resolves _ _ Hcat) as (c & Hfind).
  unfold mbind at 1, M_bind, bind. rewrite Hfind, Hphoto.
  unfold uploadOnCloudinary. run_monad.
  destruct (upload_result env (path photoFile)) as [photoUrl|] eqn:Hup;
    [|by eexists].
  destruct Hfail as [?|(voicePath & Hv & Ht & Hvup)]; [discriminate|].
  rewrite Hv. simpl in Ht. rewrite Ht, Hvup. by eexists.
Qed.

Lemma submit_unknown_category_is_404_witness :
  (Forall (fun v => truthy v = true) (required_fields (body Sample2.req_unknown_category))
   ∧ ¬ category_resolves Sample.st (categoryId (body Sample2.req_unknown_category)))
  ∧ submitReport Sample.env Sample2.req_unknown_category Sample.st
    = (Sample.st, Thrown (ApiError 404 "The specified categoryId does not exist.")).
Proof.
  assert (H1 : Forall (fun v => truthy v = true)
                 (required_fields (body Sample2.req_unknown_category))).
  { repeat constructor. }
  assert (H2 : ¬ category_resolves Sample.st
                   (categoryId (body Sample2.req_unknown_category))).
  { intros (c & Hc & Hid). simpl in Hc.
    apply elem_of_cons in Hc as [->|Hc]; [discriminate|].
    by apply not_elem_of_nil in Hc. }
  split; [split; assumption|].
  exact (submit_unknown_category_is_404 Sample.env Sample2.req_unknown_category
           Sample.st H1 H2).
Defined.

Lemma submit_without_photo_is_400_witness :
  (Forall (fun v => truthy v = true) (required_fields (body Sample2.req_no_photo))
   ∧ category_resolves Sample.st (categoryId (body Sample2.req_no_photo))
   ∧ photo0 Sample2.req_no_photo = None)
  ∧ submitReport Sample.env Sample2.req_no_photo Sample.st
    = (Sample.st, Thrown (ApiError 400 "A photo is required for the report.")).
Proof.
  assert (H1 : Forall (fun v => truthy v = true)
                 (required_fields (body Sample2.req_no_photo))).
  { repeat constructor. }
  assert (H2 : category_resolves Sample.st (categoryId (body Sample2.req_no_photo))).
  { exists Sample.roads. split; [left|reflexivity]. }
  assert (H3 : photo0 Sample2.req_no_photo = None) by reflexivity.
  split; [tauto|].
  exact (submit_without_photo_is_400 Sample.env Sample2.req_no_photo Sample.st H1 H2 H3).
Defined.

Lemma submit_upload_failure_is_500_witness :
  (Forall (fun v => truthy v = true) (required_fields (body Sample.req_ok))
   ∧ category_resolves Sample.st (categoryId (body Sample.req_ok))
   ∧ photo0 Sample.req_ok
     = Some (mkFiles (Some [Sample.photo_file]) (Some [Sample.voice_file]),
             Sample.photo_file)
   ∧ (upload_result Sample2.env_voice_down (path Sample.photo_file) = None
      ∨ (exists voicePath,
            voice0_path (mkFiles (Some [Sample.photo_file]) (Some [Sample.voice_file]))
              = Some voicePath
            ∧ truthy_str (Some voicePath) = true
            ∧ upload_result Sample2.env_voice_down voicePath = None)))
  ∧ exists msg,
      submitReport Sample2.env_voice_down Sample.req_ok Sample.st
        = (Sample.st, Thrown (ApiError 500 msg)).
Proof.
  assert (H1 : Forall (fun v => truthy v = true) (required_fields (body Sample.req_ok))).
  { repeat constructor. }
  assert (H2 : category_resolves Sample.st (categoryId (body Sample.req_ok))).
  { exists Sample.roads. split; [left|reflexivity]. }
  assert (H3 : photo0 Sample.req_ok
               = Some (mkFiles (Some [Sample.photo_file]) (Some [Sample.voice_file]),
                       Sample.photo_file)) by reflexivity.
  assert (H4 : upload_result Sample2.env_voice_down (path Sample.photo_file) = None
               ∨ (exists voicePath,
                     voice0_path (mkFiles (Some [Sample.photo_file])
                                    (Some [Sample.voice_file])) = Some voicePath
                     ∧ truthy_str (Some voicePath) = true
                     ∧ upload_result Sample2.env_voice_down voicePath = None)).
  { right. exists "public/temp/pothole.ogg". repeat split. }
  split; [tauto|].
  exact (submit_upload_failure_is_500 Sample2.env_voice_down Sample.req_ok Sample.st
           _ _ H1 H2 H3 H4).
Defined.

(** Every run of [submitReport]: an [ApiError] with nothing written, or
    one report and its history record written, followed by the outcome of
    the analytics recomputation. *)
Lemma submitReport_cases env req st :
  (exists code msg,
      submitReport env req st = (st, Thrown (ApiError code msg))
      ∧ (code = 400 ∨ code = 404 ∨ code = 500))
  ∨ (exists photoUrl voiceUrl,
        let newReport := submitted_report env req photoUrl voiceUrl in
        let st' :=
          set_histories (fun l => l ++ [submitted_history env req])
            (set_reports (fun l => l ++ [newReport]) st) in
        submitReport env req st
        = (st', match analytics_rejection env with
                | None => Returned (mkResponse 201
                            (mkApiResponse 201 newReport "Report submitted successfully."))
                | Some e => Thrown e
                end)).
Proof.
  unfold submitReport.
  destruct (negb (truthy (title (body req))) || _ || _ || _ || _);
    [left; do 2 eexists; split; [reflexivity|tauto]|].
  unfold Category.findOne, uploadOnCloudinary, Report.create, ReportHistory.create,
    generateAnalytics.
  run_monad.
  destruct (head (filter _ (categories st)));
    [|left; do 2 eexists; split; [reflexivity|tauto]].
  destruct (photo0 req) as [[fs photoFile]|];
    [|left; do 2 eexists; split; [reflexivity|tauto]].
  destruct (upload_result env (path photoFile)) as [photoUrl|];
    [|left; do 2 eexists; split; [reflexivity|tauto]].
  destruct (voice0_path fs) as [voicePath|]; simpl.
  - destruct (negb (String.eqb voicePath EmptyString)); simpl.
    + destruct (upload_result env voicePath) as [url|]; simpl;
        [|left; do 2 eexists; split; [reflexivity|tauto]].
      right. exists photoUrl, (Some url).
      destruct (analytics_rejection env); reflexivity.
    + right. exists photoUrl, None.
      destruct (analytics_rejection env); reflexivity.
  - right. exists photoUrl, None.
    destruct (analytics_rejection env); reflexivity.
Qed.

(** X7: a submission only appends: the stored reports and history records
    are kept, at most one report (carrying the generated identifier, the
    caller as owner and the status "pending") and at most one history
    record (null to "pending", naming that identifier) are added, and the
    notifications, categories and users are never touched; an answer is a
    201 carrying the one report that was appended, whose history record
    was appended too. *)
Theorem submit_only_appends env req st :
  let st' := (submitReport env req st).1 in
  (exists rs hs,
      reports st' = reports st ++ rs
      ∧ histories st' = histories st ++ hs
      ∧ (length rs ≤ 1)%nat
      ∧ (length hs ≤ 1)%nat
      ∧ Forall (fun r => r_reportId r = uuid env
                         ∧ r_userId r = u_userId (user req)
                         ∧ r_status r = JStr "pending") rs
      ∧ Forall (fun h => h_reportId h = uuid env
                         ∧ h_previousStatus h = JNull
                         ∧ h_newStatus h = JStr "pending") hs
      ∧ (forall resp,
            (submitReport env req st).2 = Returned resp ->
            http_status resp = 201
            ∧ rs = [data (json resp)]
            ∧ length hs = 1%nat))
  ∧ notifications st' = notifications st
  ∧ categories st' = categories st
  ∧ users st' = users st.
Proof.
  destruct (submitReport_cases env req st)
    as [(code & msg & -> & Hcode)|(photoUrl & voiceUrl & ->)]; simpl.
  - split; [|done]. exists [], []. rewrite !app_nil_r.
    repeat split; try done; simpl; lia.
  - split; [|done].
    exists [submitted_report env req photoUrl voiceUrl], [submitted_history env req].
    split; [done|]. split; [done|]. split; [simpl; lia|]. split; [simpl; lia|].
    split; [by repeat constructor|]. split; [by repeat constructor|].
    intros resp Hresp.
    destruct (analytics_rejection env); [discriminate|].
    injection Hresp as <-. done.
Qed.

(** ** Listings: contents and joins *)

Lemma getMyReports_run reqUser st :
  let rs := sort_desc r_createdAt (own_reports st reqUser) in
  exists msg,
    getMyReports reqUser st
    = (st, Returned (mkResponse 200
                       (mkApiResponse 200
                          ((fun report =>
                              mkPopulatedReport report (UserFull reqUser)
                                (category_ref (category_map st rs) report)) <$> rs)
                          msg))).
Proof.
  intros rs. unfold getMyReports, Report.find_by_user, Category.find_in.
  run_monad. fold (own_reports st reqUser). fold rs.
  case_bool_decide as Hlen.
  - apply length_zero_iff_nil in Hlen. rewrite Hlen. by eexists.
  - by eexists.
Qed.

Lemma getAllReports_run st :
  reports st ≠ [] ->
  let rs := sort_desc r_createdAt (reports st) in
  getAllReports st
  = (st, Returned (mkResponse 200
                     (mkApiResponse 200
                        ((fun report =>
                            mkPopulatedReport report (user_ref (user_map st rs) report)
                              (category_ref (category_map st rs) report)) <$> rs)
                        "All reports fetched successfully."))).
Proof.
  intros Hne rs. unfold getAllReports, Report.find_all, User.find_in, Category.find_in.
  run_monad. fold rs.
  case_bool_decide as Hlen; [|reflexivity].
  exfalso. apply Hne. apply length_zero_iff_nil in Hlen.
  apply Permutation_nil_r. rewrite <- Hlen. symmetry. apply merge_sort_Permutation.
Qed.

(** X8: the own-report listing answers 200 with exactly the reports whose
    owner is the caller, each once, and each shows the caller's full user
    object as its owner. *)
Theorem my_reports_are_exactly_the_callers reqUser st :
  exists resp,
    getMyReports reqUser st = (st, Returned resp)
    ∧ http_status resp = 200
    ∧ pr_report <$> data (json resp) ≡ₚ own_reports st reqUser
    ∧ Forall (fun p => pr_userId p = UserFull reqUser
                       ∧ r_userId (pr_report p) = u_userId reqUser)
        (data (json resp)).
Proof.
  destruct (getMyReports_run reqUser st) as [msg Hrun].
  eexists. split; [exact Hrun|]. split; [reflexivity|]. simpl. split.
  - rewrite fmap_fmap_cancel by done. apply sort_desc_Permutation.
  - apply Forall_fmap, Forall_forall. intros r Hr. simpl. split; [done|].
    rewrite sort_desc_Permutation in Hr.
    by apply list_elem_of_filter in Hr as [? _].
Qed.

(** X9: when the store holds a report, the admin listing answers 200 with
    exactly the reports of the store, each once. *)
Theorem all_reports_are_listed st :
  reports st ≠ [] ->
  exists resp,
    getAllReports st = (st, Returned resp)
    ∧ http_status resp = 200
    ∧ pr_report <$> data (json resp) ≡ₚ reports st.
Proof.
  intros Hne. eexists. split; [exact (getAllReports_run st Hne)|].
  split; [reflexivity|]. simpl.
  rewrite fmap_fmap_cancel by done. apply sort_desc_Permutation.
Qed.

Lemma elem_of_uniq_from_keeps {A} (eqb : A -> A -> bool) (seen l : list A) (x : A) :
  eqb x x = true ->
  (forall z, eqb x z = true -> z = x) ->
  x ∈ l -> x ∉ seen -> x ∈ uniq_from eqb seen l.
Proof.
  intros Hrefl Hdisc. revert seen. induction l as [|y l IH]; intros seen Hl Hseen.
  - by apply not_elem_of_nil in Hl.
  - simpl. destruct (eqb x y) eqn:Exy.
    + apply Hdisc in Exy as ->.
      destruct (existsb (eqb x) seen) eqn:Hex; [|left].
      exfalso. apply existsb_exists in Hex as (z & Hz%list_elem_of_In & Hxz).
      apply Hdisc in Hxz as ->. done.
    + assert (x ≠ y) as Hne by (intros ->; congruence).
      apply elem_of_cons in Hl as [?|Hl]; [done|].
      destruct (existsb (eqb y) seen).
      * by apply IH.
      * right. apply IH; [done|]. rewrite elem_of_cons. tauto.
Qed.

Lemma category_map_lookup_Some st rs cid c :
  category_map st rs !! cid = Some c -> c ∈ categories st ∧ c_categoryId c = cid.
Proof.
  intros H%map_of_lookup_Some.
  apply list_elem_of_fmap in H as (c' & [= -> ->] & Hc).
  apply list_elem_of_filter in Hc as [_ Hc]. done.
Qed.

Lemma category_ref_joined st rs r u :
  r ∈ rs ->
  category_joined st (mkPopulatedReport r u (category_ref (category_map st rs) r)).
Proof.
  intros Hr. split; simpl.
  - intros cid Hcid Hne (c & Hc & Hid).
    assert (is_Some (category_map st rs !! cid)) as [c' Hc'].
    { apply (map_of_lookup_is_Some _ _ c).
      apply list_elem_of_fmap. exists c. split; [by rewrite Hid|].
      apply list_elem_of_filter. split; [|done]. rewrite Hid.
      apply elem_of_uniq_from_keeps.
      - simpl. apply String.eqb_refl.
      - intros [] Hz; try discriminate. simpl in Hz.
        apply String.eqb_eq in Hz. by subst.
      - apply list_elem_of_filter. split.
        + simpl. apply Is_true_true, negb_true_iff, String.eqb_neq. done.
        + rewrite <- Hcid. apply list_elem_of_fmap. by exists r.
      - apply not_elem_of_nil. }
    destruct (category_map_lookup_Some _ _ _ _ Hc') as [Hin Hid'].
    exists c'. split; [done|]. split; [done|].
    unfold category_ref. rewrite Hcid. simpl. by rewrite Hc'.
  - intros Hnone. unfold category_ref.
    destruct (as_key (r_categoryId r)) as [cid|] eqn:Hkey; simpl; [|done].
    destruct (category_map st rs !! cid) as [c|] eqn:Hc; [|done].
    destruct (category_map_lookup_Some _ _ _ _ Hc) as [Hin Hid].
    exfalso. apply (Hnone c Hin). rewrite Hid.
    destruct (r_categoryId r); try discriminate. by injection Hkey as ->.
Qed.



(** X10: in the own-report listing, a report whose category id is a
    non-empty string carried by a stored category shows a category with
    that id in place of the id; a report whose category id matches no
    stored category (or is not a string) keeps the raw value. *)
Theorem my_reports_join_categories reqUser st :
  exists resp,
    getMyReports reqUser st = (st, Returned resp)
    ∧ Forall (category_joined st) (data (json resp)).
Proof.
  destruct (getMyReports_run reqUser st) as [msg Hrun].
  eexists. split; [exact Hrun|]. simpl.
  apply Forall_fmap, Forall_forall. intros r Hr.
  by apply category_ref_joined.
Qed.


Lemma all_reports_are_listed_witness :
  reports Sample.st ≠ []
  ∧ exists resp,
      getAllReports Sample.st = (Sample.st, Returned resp)
      ∧ http_status resp = 200
      ∧ pr_report <$> data (json resp) ≡ₚ reports Sample.st.
Proof.
  assert (H : reports Sample.st ≠ []) by discriminate.
  split; [exact H|].
  exact (all_reports_are_listed Sample.st H).
Defined.


Example all_reports_of_the_sample :
  (getAllReports Sample.st).2
  = Returned (mkResponse 200
      (mkApiResponse 200
         [mkPopulatedReport Sample.lamp
            (UserSelected (mkUserView "alice" "Alice" "u-alice"))
            (CategoryRaw (JStr "cat-9"));
          mkPopulatedReport Sample.leak
            (UserSelected (mkUserView "bob" "Bob" "u-bob"))
            (CategoryObj Sample.roads);
          mkPopulatedReport Sample.pothole
            (UserSelected (mkUserView "alice" "Alice" "u-alice"))
            (CategoryObj Sample.roads)]
         "All reports fetched successfully.")).
Proof. vm_compute. reflexivity. Qed.

(** X12: the notification listing answers 200 with exactly the
    notifications addressed to the caller, each once: no notification of
    another user is listed and none of the caller's is left out. *)
Theorem my_notifications_are_exactly_the_callers reqUser st :
  exists resp,
    getMyNotifications reqUser st = (st, Returned resp)
    ∧ http_status resp = 200
    ∧ pn_notification <$> data (json resp) ≡ₚ own_notifications st reqUser
    ∧ Forall (fun p => n_userId (pn_notification p) = u_userId reqUser)
        (data (json resp)).
Proof.
  destruct (getMyNotifications_run reqUser st) as [msg Hrun].
  eexists. split; [exact Hrun|]. split; [reflexivity|]. simpl. split.
  - rewrite fmap_fmap_cancel by done. apply sort_desc_Permutation.
  - apply Forall_fmap, Forall_forall. intros n Hn. simpl.
    rewrite sort_desc_Permutation in Hn.
    by apply list_elem_of_filter in Hn as [? _].
Qed.

(** ** Mark as read: repetition, frame, composition with the listing *)

Lemma markNotificationAsRead_run notificationId reqUser st :
  markNotificationAsRead notificationId reqUser st =
    match list_find (fun n => n_notificationId n = notificationId
                              ∧ n_userId n = u_userId reqUser) (notifications st) with
    | Some (i, n) =>
        (set_notifications (fun l => <[i := Notification.set_status "read" n]> l) st,
         Returned (mkResponse 200
                     (mkApiResponse 200 (Notification.set_status "read" n)
                        "Notification marked as read.")))
    | None =>
        (st, Thrown (ApiError 404 "Notification not found or user not authorized."))
    end.
Proof.
  unfold markNotificationAsRead, Notification.findOneAndUpdate. run_monad.
  destruct (list_find _ (notifications st)) as [[i n]|]; reflexivity.
Qed.

Lemma list_find_insert_same {A} (P : A -> Prop) `{forall x, Decision (P x)}
  (l : list A) i x y :
  list_find P l = Some (i, x) -> P y -> list_find P (<[i := y]> l) = Some (i, y).
Proof.
  intros (Hi & Hx & Hbefore)%list_find_Some Hy. apply list_find_Some.
  split; [|split; [done|]].
  - apply list_lookup_insert_eq. by eapply lookup_lt_Some.
  - intros j z Hj Hlt. rewrite list_lookup_insert_ne in Hj by lia.
    by eapply Hbefore.
Qed.

(** X13: marking a notification as read a second time gives the same
    answer as the first time and leaves the store as the first call left
    it. *)
Theorem mark_as_read_is_idempotent notificationId reqUser st :
  markNotificationAsRead notificationId reqUser
    (markNotificationAsRead notificationId reqUser st).1
  = markNotificationAsRead notificationId reqUser st.
Proof.
  rewrite (markNotificationAsRead_run _ _ st).
  destruct (list_find _ (notifications st)) as [[i n]|] eqn:Hfind; simpl.
  - rewrite markNotificationAsRead_run. simpl.
    rewrite (list_find_insert_same _ _ _ _ (Notification.set_status "read" n) Hfind).
    + unfold set_notifications. simpl. rewrite list_insert_insert_eq. reflexivity.
    + apply list_find_Some in Hfind as (_ & Hn & _). exact Hn.
  - rewrite markNotificationAsRead_run, Hfind. reflexivity.
Qed.

(** X14: marking as read never adds or removes a notification, changes no
    field but the read-status, leaves every notification that is addressed
    to another user or carries another id exactly as it was, and touches
    no other collection. *)
Theorem mark_as_read_frame notificationId reqUser st :
  let st' := (markNotificationAsRead notificationId reqUser st).1 in
  without_status <$> notifications st' = without_status <$> notifications st
  ∧ (forall j n,
        notifications st !! j = Some n ->
        ¬ owned_by notificationId (u_userId reqUser) n ->
        notifications st' !! j = Some n)
  ∧ reports st' = reports st
  ∧ histories st' = histories st
  ∧ categories st' = categories st
  ∧ users st' = users st.
Proof.
  rewrite markNotificationAsRead_run.
  destruct (list_find _ (notifications st)) as [[i n]|] eqn:Hfind; simpl;
    [|by repeat split].
  apply list_find_Some in Hfind as (Hi & Hn & _).
  split; [|split; [|by repeat split]].
  - rewrite list_fmap_insert. apply list_insert_id.
    rewrite list_lookup_fmap, Hi. reflexivity.
  - intros j m Hj Hm. destruct (decide (i = j)) as [->|Hne].
    + rewrite Hi in Hj. injection Hj as ->. by destruct Hm.
    + by rewrite list_lookup_insert_ne.
Qed.

(** X15: after a notification of the caller has been marked as read, the
    caller's listing contains a notification with that id whose status is
    "read". *)
Theorem mark_as_read_shows_in_listing notificationId reqUser st :
  (exists n, n ∈ notifications st ∧ owned_by notificationId (u_userId reqUser) n) ->
  exists st' resp p,
    (markNotificationAsRead notificationId reqUser st).1 = st'
    ∧ getMyNotifications reqUser st' = (st', Returned resp)
    ∧ p ∈ data (json resp)
    ∧ n_notificationId (pn_notification p) = notificationId
    ∧ n_status (pn_notification p) = "read".
Proof.
  intros (n0 & Hin & Hown). unfold owned_by in Hown.
  destruct (list_find_elem_of
              (fun n => n_notificationId n = notificationId
                        ∧ n_userId n = u_userId reqUser)
              (notifications st) n0 Hin Hown) as [[i n] Hfind].
  rewrite markNotificationAsRead_run, Hfind. simpl.
  apply list_find_Some in Hfind as (Hi & [Hid Hu] & _).
  set (st' := set_notifications _ st).
  destruct (getMyNotifications_run reqUser st') as [msg Hrun].
  set (n' := Notification.set_status "read" n).
  assert (n' ∈ sort_desc n_createdAt
                 (filter (fun n => n_userId n = u_userId reqUser) (notifications st')))
    as Hn'.
  { rewrite sort_desc_Permutation. apply list_elem_of_filter. split; [exact Hu|].
    apply (list_elem_of_lookup_2 _ i). simpl.
    apply list_lookup_insert_eq. by eapply lookup_lt_Some. }
  eexists st', _, _. split; [reflexivity|]. split; [exact Hrun|]. simpl.
  split; [apply list_elem_of_fmap; exists n'; split; [reflexivity|exact Hn']|].
  simpl. split; [exact Hid|reflexivity].
Qed.

Lemma mark_as_read_shows_in_listing_witness :
  (exists n, n ∈ notifications Sample.st ∧ owned_by "n-2" (u_userId Sample.alice) n)
  ∧ exists st' resp p,
      (markNotificationAsRead "n-2" Sample.alice Sample.st).1 = st'
      ∧ getMyNotifications Sample.alice st' = (st', Returned resp)
      ∧ p ∈ data (json resp)
      ∧ n_notificationId (pn_notification p) = "n-2"
      ∧ n_status (pn_notification p) = "read".
Proof.
  assert (H : exists n, n ∈ notifications Sample.st
                        ∧ owned_by "n-2" (u_userId Sample.alice) n).
  { exists Sample.note2. split; [right; left|split; reflexivity]. }
  split; [exact H|].
  exact (mark_as_read_shows_in_listing "n-2" Sample.alice Sample.st H).
Defined.

(** ** Lookup by id *)

(** X16: whatever the population does, the lookup of a report by id reads
    the store without changing it, answers the 404 error when no report
    carries the id, and otherwise answers 200 with the population of the
    first report that carries it (or fails as the population fails). *)
Theorem getReportById_reads_first_match_or_404
  {Populated : Type} (populate : Store -> ReportDoc -> Result Populated) reportId st :
  (getReportById populate reportId st).1 = st
  ∧ ((forall r, r ∈ reports st -> r_reportId r ≠ reportId) ->
     (getReportById populate reportId st).2 = Thrown (ApiError 404 "Report not found."))
  ∧ (forall r, r ∈ reports st -> r_reportId r = reportId ->
       exists i r1,
         reports st !! i = Some r1
         ∧ r_reportId r1 = reportId
         ∧ (forall j r2, reports st !! j = Some r2 -> (j < i)%nat -> r_reportId r2 ≠ reportId)
         ∧ (getReportById populate reportId st).2
           = match populate st r1 with
             | Returned p =>
                 Returned (mkResponse 200
                             (mkApiResponse 200 p "Report fetched successfully."))
             | Thrown e => Thrown e
             end).
Proof.
  unfold getReportById, findOne_populated, populated, Report.findOne. run_monad.
  destruct (list_find (fun r => r_reportId r = reportId) (reports st))
    as [[i r1]|] eqn:Hfind.
  - apply list_find_Some in Hfind as (Hi & Hid & Hbefore).
    split; [by destruct (populate st r1)|]. split.
    + intros Hnone. exfalso. eapply Hnone; [|exact Hid].
      by eapply list_elem_of_lookup_2.
    + intros _ _ _. exists i, r1. repeat split; try done.
      by destruct (populate st r1).
  - apply list_find_None in Hfind. rewrite Forall_forall in Hfind.
    split; [done|]. split; [done|].
    intros r Hr Hid. exfalso. by apply (Hfind r Hr).
Qed.

(** ** How the handlers compose *)

Lemma submitReport_valid_run env req st fs photoFile photoUrl :
  Forall (fun v => truthy v = true) (required_fields (body req)) ->
  category_resolves st (categoryId (body req)) ->
  photo0 req = Some (fs, photoFile) ->
  upload_result env (path photoFile) = Some photoUrl ->
  voice_upload_succeeds env fs ->
  exists voiceUrl,
    (submitReport env req st).1
    = set_histories (fun l => l ++ [submitted_history env req])
        (set_reports (fun l => l ++ [submitted_report env req photoUrl voiceUrl]) st).
Proof.
  intros Hfields Hcat Hphoto Hup Hvoice. unfold submitReport.
  rewrite (required_fields_pass _ Hfields).
  destruct (findOne_category_resolves _ _ Hcat) as (c & Hfind).
  unfold mbind at 1, M_bind, bind. rewrite Hfind, Hphoto.
  unfold uploadOnCloudinary, generateAnalytics, Report.create, ReportHistory.create.
  run_monad. rewrite Hup.
  unfold voice_upload_succeeds in Hvoice.
  destruct (voice0_path fs) as [voicePath|]; simpl in *.
  - destruct (negb (String.eqb voicePath EmptyString)); simpl.
    + destruct (Hvoice eq_refl) as [url Hurl]. rewrite Hurl. simpl.
      exists (Some url). by destruct (analytics_rejection env).
    + exists None. by destruct (analytics_rejection env).
  - exists None. by destruct (analytics_rejection env).
Qed.

(** X17: after a valid submission, whether or not the analytics
    recomputation that follows succeeds, the submitter's own listing
    contains the new report: it carries the generated identifier, the
    submitted title and the status "pending", and shows the submitter as
    its owner. *)
Theorem submitted_report_is_listed env req st fs photoFile photoUrl :
  Forall (fun v => truthy v = true) (required_fields (body req)) ->
  category_resolves st (categoryId (body req)) ->
  photo0 req = Some (fs, photoFile) ->
  upload_result env (path photoFile) = Some photoUrl ->
  voice_upload_succeeds env fs ->
  exists st' resp p,
    (submitReport env req st).1 = st'
    ∧ getMyReports (user req) st' = (st', Returned resp)
    ∧ p ∈ data (json resp)
    ∧ r_reportId (pr_report p) = uuid env
    ∧ r_title (pr_report p) = title (body req)
    ∧ r_status (pr_report p) = JStr "pending"
    ∧ pr_userId p = UserFull (user req).
Proof.
  intros Hfields Hcat Hphoto Hup Hvoice.
  destruct (submitReport_valid_run env req st _ _ _ Hfields Hcat Hphoto Hup Hvoice)
    as [voiceUrl ->].
  set (st' := set_histories _ _).
  set (newReport := submitted_report env req photoUrl voiceUrl).
  destruct (getMyReports_run (user req) st') as [msg Hrun].
  assert (newReport ∈ sort_desc r_createdAt (own_reports st' (user req))) as Hnew.
  { rewrite sort_desc_Permutation. apply list_elem_of_filter. split; [reflexivity|].
    simpl. apply elem_of_app. right. left. }
  eexists st', _, _. split; [reflexivity|]. split; [exact Hrun|]. simpl.
  split; [apply list_elem_of_fmap; exists newReport; split; [reflexivity|exact Hnew]|].
  simpl. done.
Qed.

Lemma submitted_report_is_listed_witness :
  (Forall (fun v => truthy v = true) (required_fields (body Sample.req_ok))
   ∧ category_resolves Sample.st (categoryId (body Sample.req_ok))
   ∧ photo0 Sample.req_ok
     = Some (mkFiles (Some [Sample.photo_file]) (Some [Sample.voice_file]),
             Sample.photo_file)
   ∧ upload_result Sample.env_analytics_down (path Sample.photo_file)
     = Some "https://cdn.example.org/public/temp/pothole.jpg"
   ∧ voice_upload_succeeds Sample.env_analytics_down
       (mkFiles (Some [Sample.photo_file]) (Some [Sample.voice_file])))
  ∧ exists st' resp p,
      (submitReport Sample.env_analytics_down Sample.req_ok Sample.st).1 = st'
      ∧ getMyReports (user Sample.req_ok) st' = (st', Returned resp)
      ∧ p ∈ data (json resp)
      ∧ r_reportId (pr_report p) = uuid Sample.env_analytics_down
      ∧ r_title (pr_report p) = title (body Sample.req_ok)
      ∧ r_status (pr_report p) = JStr "pending"
      ∧ pr_userId p = UserFull (user Sample.req_ok).
Proof.
  assert (H1 : Forall (fun v => truthy v = true) (required_fields (body Sample.req_ok))).
  { repeat constructor. }
  assert (H2 : category_resolves Sample.st (categoryId (body Sample.req_ok))).
  { exists Sample.roads. split; [left|reflexivity]. }
  assert (H3 : photo0 Sample.req_ok
               = Some (mkFiles (Some [Sample.photo_file]) (Some [Sample.voice_file]),
                       Sample.photo_file)) by reflexivity.
  assert (H4 : upload_result Sample.env_analytics_down (path Sample.photo_file)
               = Some "https://cdn.example.org/public/temp/pothole.jpg") by reflexivity.
  assert (H5 : voice_upload_succeeds Sample.env_analytics_down
                 (mkFiles (Some [Sample.photo_file]) (Some [Sample.voice_file]))).
  { intros _. eexists. reflexivity. }
  split; [tauto|].
  exact (submitted_report_is_listed Sample.env_analytics_down Sample.req_ok Sample.st
           _ _ _ H1 H2 H3 H4 H5).
Defined.

Lemma NoDup_fmap_lookup_elem {A B} (f : A -> B) (l : list A) i x y :
  NoDup (f <$> l) -> l !! i = Some x -> y ∈ l -> f y = f x -> y = x.
Proof.
  intros Hnd Hi (j & Hj)%list_elem_of_lookup_1 Hf.
  assert (i = j) as ->.
  { apply (NoDup_lookup (f <$> l) i j (f x)); [done| |].
    - by rewrite list_lookup_fmap, Hi.
    - by rewrite list_lookup_fmap, Hj, <- Hf. }
  congruence.
Qed.

(** X18: when report identifiers are unique, a status update whose
    notification is created shows in the owner's notification listing
    with the report already in its new status: the listing contains a
    notification that names the report and carries the projection
    (reportId, title, new status). *)
Theorem status_update_shows_in_owner_notifications
  env reportId status description st i report0 u :
  truthy status = true ->
  list_find (fun r => r_reportId r = reportId) (reports st) = Some (i, report0) ->
  NoDup (r_reportId <$> reports st) ->
  reportId ≠ EmptyString ->
  owner_of st report0 = Some u ->
  notification_rejection env = None ->
  exists st' resp p,
    (updateReportStatus env reportId status description st).1 = st'
    ∧ getMyNotifications u st' = (st', Returned resp)
    ∧ p ∈ data (json resp)
    ∧ n_reportId (pn_notification p) = Some reportId
    ∧ n_message (pn_notification p) = status_message env reportId status
    ∧ pn_reportId p = ReportSelected (mkReportView reportId (r_title report0) status).
Proof.
  intros Hs Hf Hnd Hne Hu Hn.
  pose proof (updateReportStatus_reports env _ _ description _ _ _ Hs Hf) as Hreports.
  pose proof (updateReportStatus_found env _ _ description _ _ _ Hs Hf) as Hrun.
  simpl in Hrun.
  change (owner_of st (updated_report status description report0))
    with (owner_of st report0) in Hrun.
  rewrite Hu, Hn in Hrun.
  apply list_find_Some in Hf as (Hi & Hid & _).
  apply head_filter_Some in Hu as [_ Huid].
  set (report := updated_report status description report0) in *.
  set (new := Notification.new env (u_userId u)
                (status_message env (r_reportId report) status)
                "status_update" (r_reportId report)) in *.
  set (st' := (updateReportStatus env reportId status description st).1) in *.
  assert (notifications st' = notifications st ++ [new]) as Hnotes.
  { subst st'. rewrite Hrun. by destruct (analytics_rejection env). }
  destruct (getMyNotifications_run u st') as [msg Hlist].
  set (ns := sort_desc n_createdAt
               (filter (fun n => n_userId n = u_userId u) (notifications st'))) in *.
  assert (new ∈ ns) as Hnew.
  { subst ns. rewrite sort_desc_Permutation. apply list_elem_of_filter.
    split; [reflexivity|]. rewrite Hnotes. apply elem_of_app. right. left. }
  assert (reports st' !! i = Some report) as Hi'.
  { rewrite Hreports. apply list_lookup_insert_eq. by eapply lookup_lt_Some. }
  destruct (report_ref_resolved st' ns new reportId Hnew) as (r & Hr & Hrid & Href).
  { simpl. by rewrite Hid. }
  { exact Hne. }
  { exists report. split; [by eapply list_elem_of_lookup_2|exact Hid]. }
  assert (r = report) as ->.
  { apply (NoDup_fmap_lookup_elem r_reportId (reports st') i); try done.
    - rewrite Hreports, list_fmap_insert, list_insert_id; [done|].
      by rewrite list_lookup_fmap, Hi.
    - by rewrite Hrid. }
  eexists st', _, _. split; [reflexivity|]. split; [exact Hlist|]. simpl.
  split; [apply list_elem_of_fmap; exists new; split; [reflexivity|exact Hnew]|].
  simpl. rewrite Hid. split; [done|]. split; [done|].
  rewrite Href. unfold Report.select. simpl. by rewrite Hid.
Qed.

Lemma status_update_shows_in_owner_notifications_witness :
  (truthy (JStr "resolved") = true
   ∧ list_find (fun r => r_reportId r = "r-3") (reports Sample.st)
       = Some (2%nat, Sample.leak)
   ∧ NoDup (r_reportId <$> reports Sample.st)
   ∧ "r-3" ≠ EmptyString
   ∧ owner_of Sample.st Sample.leak = Some Sample.bob
   ∧ notification_rejection Sample.env = None)
  ∧ exists st' resp p,
      (updateReportStatus Sample.env "r-3" (JStr "resolved") JUndefined Sample.st).1 = st'
      ∧ getMyNotifications Sample.bob st' = (st', Returned resp)
      ∧ p ∈ data (json resp)
      ∧ n_reportId (pn_notification p) = Some "r-3"
      ∧ n_message (pn_notification p)
        = status_message Sample.env "r-3" (JStr "resolved")
      ∧ pn_reportId p
        = ReportSelected (mkReportView "r-3" (r_title Sample.leak) (JStr "resolved")).
Proof.
  assert (H1 : truthy (JStr "resolved") = true) by reflexivity.
  assert (H2 : list_find (fun r => r_reportId r = "r-3") (reports Sample.st)
               = Some (2%nat, Sample.leak)) by reflexivity.
  assert (H3 : NoDup (r_reportId <$> reports Sample.st)).
  { apply (bool_decide_unpack _). vm_compute. exact I. }
  assert (H4 : "r-3" ≠ EmptyString) by discriminate.
  assert (H5 : owner_of Sample.st Sample.leak = Some Sample.bob) by reflexivity.
  assert (H6 : notification_rejection Sample.env = None) by reflexivity.
  split; [tauto|].
  exact (status_update_shows_in_owner_notifications Sample.env "r-3" (JStr "resolved")
           JUndefined Sample.st 2%nat Sample.leak Sample.bob H1 H2 H3 H4 H5 H6).
Defined.

(** With two reports under one identifier the update writes to the first
    and the listing shows the last: the uniqueness above is needed. *)
Example twin_identifiers_diverge :
  let st := mkStore [Sample.pothole; Sample2.twin] [] [] [Sample.roads]
              [Sample.alice; Sample.bob] in
  let st' := (updateReportStatus Sample.env "r-1" (JStr "resolved") JUndefined st).1 in
  r_status <$> reports st' = [JStr "resolved"; JStr "pending"]
  ∧ match (getMyNotifications Sample.alice st').2 with
    | Returned resp =>
        pn_reportId <$> data (json resp)
        = [ReportSelected (mkReportView "r-1" (JStr "Twin") (JStr "pending"))]
    | Thrown _ => False
    end.
Proof. vm_compute. repeat split; reflexivity. Qed.

(** ** Identifiers *)

Lemma updateReportStatus_ids env reportId status description st :
  r_reportId <$> reports (updateReportStatus env reportId status description st).1
  = r_reportId <$> reports st.
Proof.
  destruct (truthy status) eqn:Hs.
  - destruct (list_find (fun r => r_reportId r = reportId) (reports st))
      as [[i r0]|] eqn:Hf.
    + rewrite (updateReportStatus_reports _ _ _ _ _ _ _ Hs Hf).
      apply list_find_Some in Hf as (Hi & _ & _).
      rewrite list_fmap_insert. apply list_insert_id.
      by rewrite list_lookup_fmap, Hi.
    + unfold updateReportStatus, Report.findOne. rewrite Hs. run_monad.
      rewrite Hf. reflexivity.
  - unfold updateReportStatus. rewrite Hs. reflexivity.
Qed.

(** X19: unique report identifiers stay unique: a status update never
    changes the identifiers in the collection, whatever its outcome, and a
    submission keeps them unique as long as the generated identifier is
    not already in use. *)
Theorem report_identifiers_stay_unique env req reportId status description st :
  NoDup (r_reportId <$> reports st) ->
  NoDup (r_reportId <$> reports (updateReportStatus env reportId status description st).1)
  ∧ (uuid env ∉ r_reportId <$> reports st ->
     NoDup (r_reportId <$> reports (submitReport env req st).1)).
Proof.
  intros Hnd. split.
  - by rewrite updateReportStatus_ids.
  - intros Hfresh.
    destruct (submitReport_cases env req st)
      as [(code & msg & -> & _)|(photoUrl & voiceUrl & ->)]; simpl; [done|].
    rewrite fmap_app. apply NoDup_app. split; [done|]. split.
    + intros x Hx [->|[]%not_elem_of_nil]%elem_of_cons. done.
    + apply NoDup_singleton.
Qed.

Lemma report_identifiers_stay_unique_witness :
  NoDup (r_reportId <$> reports Sample.st)
  ∧ NoDup (r_reportId <$> reports (updateReportStatus Sample.env "r-1" (JStr "resolved")
                                     JUndefined Sample.st).1)
  ∧ (uuid Sample.env ∉ r_reportId <$> reports Sample.st ->
     NoDup (r_reportId <$> reports (submitReport Sample.env Sample.req_ok Sample.st).1)).
Proof.
  assert (H : NoDup (r_reportId <$> reports Sample.st)).
  { apply (bool_decide_unpack _). vm_compute. exact I. }
  split; [exact H|].
  exact (report_identifiers_stay_unique Sample.env Sample.req_ok "r-1" (JStr "resolved")
           JUndefined Sample.st H).
Defined.

(** ** What a submission stores of its files *)

(** X20: the report written by a valid submission stores the URL the
    upload service answered for the photo, and for the voice recording
    the URL answered for it when one with a non-empty path was attached,
    and nothing ([null]) otherwise; local paths are never stored. *)
Theorem submission_stores_the_uploaded_urls env req st fs photoFile photoUrl :
  Forall (fun v => truthy v = true) (required_fields (body req)) ->
  category_resolves st (categoryId (body req)) ->
  photo0 req = Some (fs, photoFile) ->
  upload_result env (path photoFile) = Some photoUrl ->
  voice_upload_succeeds env fs ->
  exists newReport,
    reports (submitReport env req st).1 = reports st ++ [newReport]
    ∧ r_photo_url newReport = photoUrl
    ∧ r_voice_recording_url newReport
      = match voice0_path fs with
        | Some voicePath =>
            if truthy_str (Some voicePath) then upload_result env voicePath else None
        | None => None
        end.
Proof.
  intros Hfields Hcat Hphoto Hup Hvoice. unfold submitReport.
  rewrite (required_fields_pass _ Hfields).
  destruct (findOne_category_resolves _ _ Hcat) as (c & Hfind).
  unfold mbind at 1, M_bind, bind. rewrite Hfind, Hphoto.
  unfold uploadOnCloudinary, generateAnalytics, Report.create, ReportHistory.create.
  run_monad. rewrite Hup.
  unfold voice_upload_succeeds in Hvoice.
  destruct (voice0_path fs) as [voicePath|]; simpl in *.
  - destruct (negb (String.eqb voicePath EmptyString)); simpl.
    + destruct (Hvoice eq_refl) as [url Hurl]. rewrite Hurl. simpl.
      eexists. by destruct (analytics_rejection env).
    + eexists. by destruct (analytics_rejection env).
  - eexists. by destruct (analytics_rejection env).
Qed.

Lemma submission_stores_the_uploaded_urls_witness :
  (Forall (fun v => truthy v = true) (required_fields (body Sample.req_ok))
   ∧ category_resolves Sample.st (categoryId (body Sample.req_ok))
   ∧ photo0 Sample.req_ok
     = Some (mkFiles (Some [Sample.photo_file]) (Some [Sample.voice_file]),
             Sample.photo_file)
   ∧ upload_result Sample.env (path Sample.photo_file)
     = Some "https://cdn.example.org/public/temp/pothole.jpg"
   ∧ voice_upload_succeeds Sample.env
       (mkFiles (Some [Sample.photo_file]) (Some [Sample.voice_file])))
  ∧ exists newReport,
      reports (submitReport Sample.env Sample.req_ok Sample.st).1
        = reports Sample.st ++ [newReport]
      ∧ r_photo_url newReport = "https://cdn.example.org/public/temp/pothole.jpg"
      ∧ r_voice_recording_url newReport
        = Some "https://cdn.example.org/public/temp/pothole.ogg".
Proof.
  assert (H1 : Forall (fun v => truthy v = true) (required_fields (body Sample.req_ok))).
  { repeat constructor. }
  assert (H2 : category_resolves Sample.st (categoryId (body Sample.req_ok))).
  { exists Sample.roads. split; [left|reflexivity]. }
  assert (H3 : photo0 Sample.req_ok
               = Some (mkFiles (Some [Sample.photo_file]) (Some [Sample.voice_file]),
                       Sample.photo_file)) by reflexivity.
  assert (H4 : upload_result Sample.env (path Sample.photo_file)
               = Some "https://cdn.example.org/public/temp/pothole.jpg") by reflexivity.
  assert (H5 : voice_upload_succeeds Sample.env
                 (mkFiles (Some [Sample.photo_file]) (Some [Sample.voice_file]))).
  { intros _. eexists. reflexivity. }
  split; [tauto|].
  exact (submission_stores_the_uploaded_urls Sample.env Sample.req_ok Sample.st
           _ _ _ H1 H2 H3 H4 H5).
Defined.
